(** * price-bot: the fetch / fallback / format pipeline of [bot.py]

    A shallow embedding of [bot.py] and the properties of its
    specification.

    - Python values decoded from JSON are the inductive [pyval]; a [float]
      is an IEEE-754 binary64 value, held as a [spec_float] of the Standard
      Library with [prec = 53] and [emax = 1024], so that arithmetic and
      formatting are exact and executable.
    - A [str] is held as the bytes of its UTF-8 encoding in a [string].
      Every pattern the program searches for is ASCII, so replacing and
      searching bytes agrees with replacing and searching code points.
    - Exceptions are the values of [exn]; a computation that may raise
      returns a [res].
    - The effects of the program are the HTTP requests it sends and the
      calls it makes to [logging].  They are recorded, in order, in a
      journal that is threaded through every function: [M A] is a state
      and error monad over the journal.
    - The upstream services are a [world]: one outcome per request the
      program may send while answering one command. *)

From Stdlib Require Import ZArith List String Ascii Bool Lia DecimalString.
From Stdlib Require Import Floats.SpecFloat.
Import ListNotations.

Set Warnings "-register-all".

Local Open Scope string_scope.
Local Open Scope Z_scope.

(** ** Exceptions and results *)

(** The exception classes that the modelled operations raise.  All of them
    derive from [Exception]; [ValueError] is the only one the inner handler
    of [get_circ_supply] names. *)
Inductive exn : Type :=
  | ValueError
  | TypeError
  | OverflowError
  | ZeroDivisionError
  | IndexError
  | KeyError
  | RecursionError
  | RequestException.

Inductive res (A : Type) : Type :=
  | Ok (a : A)
  | Raise (e : exn).

Arguments Ok {A} a.
Arguments Raise {A} e.

Definition res_bind {A B : Type} (r : res A) (f : A -> res B) : res B :=
  match r with
  | Ok a => f a
  | Raise e => Raise e
  end.

Definition is_ok {A : Type} (r : res A) : bool :=
  match r with
  | Ok _ => true
  | Raise _ => false
  end.

(** ** Floats *)

Definition prec : Z := 53.
Definition emax : Z := 1024.

Definition pyfloat : Type := spec_float.

Definition fmul : pyfloat -> pyfloat -> pyfloat := SFmul prec emax.
Definition fdiv : pyfloat -> pyfloat -> pyfloat := SFdiv prec emax.

Definition is_fzero (x : pyfloat) : bool :=
  match x with
  | S754_zero _ => true
  | _ => false
  end.

(** [float(z)] for an [int]: the nearest binary64 value, ties to even;
    [OverflowError] when [z] is too large. *)
Definition float_of_int (z : Z) : res pyfloat :=
  match binary_normalize prec emax z 0 false with
  | S754_infinity _ => Raise OverflowError
  | f => Ok f
  end.

(** [x * z] with [x] a float and [z] an int: [z] is converted first. *)
Definition float_mul_int (x : pyfloat) (z : Z) : res pyfloat :=
  res_bind (float_of_int z) (fun y => Ok (fmul x y)).

(** [x / z] with [x] a float and [z] an int. *)
Definition float_div_int (x : pyfloat) (z : Z) : res pyfloat :=
  res_bind (float_of_int z) (fun y =>
    if is_fzero y then Raise ZeroDivisionError else Ok (fdiv x y)).

(** [a / b] with both operands ints: the correctly rounded quotient of the
    exact integers, [OverflowError] when it exceeds the float range. *)
Definition int_truediv (a b : Z) : res pyfloat :=
  if b =? 0 then Raise ZeroDivisionError
  else if a =? 0 then Ok (S754_zero (b <? 0))
  else
    let '(q, e, l) := SFdiv_core_binary prec emax (Z.abs a) 0 (Z.abs b) 0 in
    match binary_round_aux prec emax (xorb (a <? 0) (b <? 0)) q e l with
    | S754_infinity _ => Raise OverflowError
    | f => Ok f
    end.

(** [int(x)] for a float: the integer part, rounding toward zero. *)
Definition float_trunc (x : pyfloat) : res Z :=
  match x with
  | S754_zero _ => Ok 0
  | S754_infinity _ => Raise OverflowError
  | S754_nan => Raise ValueError
  | S754_finite s m e => Ok (cond_Zopp s (Z.shiftl (Zpos m) e))
  end.

(** ** Fixed-point formatting: the [.Nf] and [,.Nf] format specifications *)

Definition digits (n : Z) : string :=
  NilZero.string_of_uint (N.to_uint (Z.to_N n)).

Fixpoint zeros (n : nat) : string :=
  match n with
  | O => ""
  | S k => String "0" (zeros k)
  end.

(** Left padding with ["0"] up to [width] characters. *)
Definition zfill (width : nat) (s : string) : string :=
  zeros (width - String.length s) ++ s.

(** Insertion of the thousands separator, on the reversed digits. *)
Fixpoint group3_rev (l : list ascii) (k : nat) : list ascii :=
  match l with
  | [] => []
  | c :: rest =>
      match k, rest with
      | 2%nat, _ :: _ => c :: ","%char :: group3_rev rest 0
      | _, _ => c :: group3_rev rest (S k)
      end
  end.

Definition group3 (s : string) : string :=
  string_of_list_ascii (rev (group3_rev (rev (list_ascii_of_string s)) 0)).

(** [n / d] rounded to the nearest integer, ties to even ([0 <= n], [0 < d]). *)
Definition div_half_even (n d : Z) : Z :=
  let q := n / d in
  let r := n mod d in
  match 2 * r ?= d with
  | Lt => q
  | Gt => q + 1
  | Eq => if Z.even q then q else q + 1
  end.

(** [m * 2^e * 10^p] rounded to the nearest integer, ties to even. *)
Definition scaled (p : nat) (m : positive) (e : Z) : Z :=
  if 0 <=? e then Zpos m * 2 ^ e * 10 ^ Z.of_nat p
  else div_half_even (Zpos m * 10 ^ Z.of_nat p) (2 ^ (- e)).

Definition sign_str (s : bool) : string := if s then "-" else "".

(** The digits of [n / 10^p], with [p] digits after the point. *)
Definition fixed_digits (p : nat) (comma : bool) (n : Z) : string :=
  let ip := digits (n / 10 ^ Z.of_nat p) in
  let fp := zfill p (digits (n mod 10 ^ Z.of_nat p)) in
  (if comma then group3 ip else ip) ++
  (match p with O => "" | S _ => "." ++ fp end).

(** [format(x, ".pf")], and [format(x, ",.pf")] when [comma] is set. *)
Definition format_f (p : nat) (comma : bool) (x : pyfloat) : string :=
  match x with
  | S754_nan => "nan"
  | S754_infinity s => sign_str s ++ "inf"
  | S754_zero s => sign_str s ++ fixed_digits p comma 0
  | S754_finite s m e => sign_str s ++ fixed_digits p comma (scaled p m e)
  end.

(** ** Strings *)

(** [s.startswith(p)]. *)
Fixpoint startswith (p s : string) : bool :=
  match p, s with
  | EmptyString, _ => true
  | String a p', String b s' => Ascii.eqb a b && startswith p' s'
  | String _ _, EmptyString => false
  end.

(** [p in s] for two strings. *)
Fixpoint contains (p s : string) : bool :=
  startswith p s ||
  match s with
  | EmptyString => false
  | String _ s' => contains p s'
  end.

(** [text.replace(old, new)]: the occurrences of [old] are found from the
    left and do not overlap; [skip] counts the characters of a match that
    remain to be dropped. *)
Fixpoint replace_from (old new : string) (skip : nat) (text : string) : string :=
  match text with
  | EmptyString => EmptyString
  | String c rest =>
      match skip with
      | S k => replace_from old new k rest
      | O =>
          if startswith old text
          then new ++ replace_from old new (String.length old - 1) rest
          else String c (replace_from old new 0 rest)
      end
  end.

(** With an empty pattern, [new] is inserted before every character and
    at the end. *)
Fixpoint intersperse (new text : string) : string :=
  match text with
  | EmptyString => new
  | String c rest => new ++ String c (intersperse new rest)
  end.

Definition str_replace (old new text : string) : string :=
  match old with
  | EmptyString => intersperse new text
  | String _ _ => replace_from old new 0 text
  end.

(** ** Values decoded from JSON *)

Inductive pyval : Type :=
  | PNone
  | PBool (b : bool)
  | PInt (z : Z)
  | PFloat (f : pyfloat)
  | PStr (s : string)
  | PList (l : list pyval)
  | PDict (d : list (string * pyval)).

(** Truth value of an object, as tested by [if] and [and]. *)
Definition truthy (v : pyval) : bool :=
  match v with
  | PNone => false
  | PBool b => b
  | PInt z => negb (z =? 0)
  | PFloat f => negb (is_fzero f)
  | PStr s => negb (String.length s =? 0)%nat
  | PList l => negb (List.length l =? 0)%nat
  | PDict d => negb (List.length d =? 0)%nat
  end.

Definition isinstance_list (v : pyval) : bool :=
  match v with
  | PList _ => true
  | _ => false
  end.

Definition isinstance_dict (v : pyval) : bool :=
  match v with
  | PDict _ => true
  | _ => false
  end.

(** Lookup of a key in a dict.  The association list stands for the dict
    that the decoder built, so the first binding of a key is its binding. *)
Fixpoint lookup (key : string) (d : list (string * pyval)) : option pyval :=
  match d with
  | [] => None
  | (k, v) :: rest => if String.eqb key k then Some v else lookup key rest
  end.

Definition is_str (key : string) (v : pyval) : bool :=
  match v with
  | PStr s => String.eqb key s
  | _ => false
  end.

(** [key in v] with [key] a string: membership of a key for a dict, of an
    element for a list, of a substring for a string; other objects are not
    iterable. *)
Definition py_in (key : string) (v : pyval) : res bool :=
  match v with
  | PDict d => Ok (match lookup key d with Some _ => true | None => false end)
  | PList l => Ok (existsb (is_str key) l)
  | PStr s => Ok (contains key s)
  | _ => Raise TypeError
  end.

(** The first code point of a non-empty string: its first byte and the
    continuation bytes [0x80 .. 0xBF] that follow it. *)
Fixpoint continuation (s : string) : string :=
  match s with
  | String c rest =>
      if ((128 <=? nat_of_ascii c) && (nat_of_ascii c <=? 191))%nat
      then String c (continuation rest)
      else EmptyString
  | EmptyString => EmptyString
  end.

(** [v[0]]. *)
Definition getitem_0 (v : pyval) : res pyval :=
  match v with
  | PList (x :: _) => Ok x
  | PList [] => Raise IndexError
  | PStr (String c rest) => Ok (PStr (String c (continuation rest)))
  | PStr EmptyString => Raise IndexError
  | PDict _ => Raise KeyError
  | _ => Raise TypeError
  end.

(** [v[key]] with [key] a string. *)
Definition getitem_key (v : pyval) (key : string) : res pyval :=
  match v with
  | PDict d =>
      match lookup key d with
      | Some x => Ok x
      | None => Raise KeyError
      end
  | _ => Raise TypeError
  end.

(** The built-in functions on strings whose result depends on the Unicode
    tables of the interpreter.  A failed conversion is a [ValueError]. *)
Class Builtins : Type := {
  str_strip : string -> string;            (* s.strip() *)
  int_of_str : string -> option Z;         (* int(s) *)
  float_of_str : string -> option pyfloat  (* float(s) *)
}.

Section Conversions.

Context {B : Builtins}.

(** [int(v)]. *)
Definition py_int (v : pyval) : res Z :=
  match v with
  | PInt z => Ok z
  | PBool b => Ok (if b then 1 else 0)
  | PFloat f => float_trunc f
  | PStr s =>
      match int_of_str s with
      | Some z => Ok z
      | None => Raise ValueError
      end
  | _ => Raise TypeError
  end.

(** [float(v)]. *)
Definition py_float (v : pyval) : res pyfloat :=
  match v with
  | PFloat f => Ok f
  | PInt z => float_of_int z
  | PBool b => Ok (if b then S754_finite false 4503599627370496 (-52) else S754_zero false)
  | PStr s =>
      match float_of_str s with
      | Some f => Ok f
      | None => Raise ValueError
      end
  | _ => Raise TypeError
  end.

End Conversions.

(** ** Effects: the journal and the monad over it *)

Inductive level : Type := DEBUG | INFO | WARNING | ERROR.

(** An argument passed to a logging call. *)
Inductive logarg : Type :=
  | ArgExn (e : exn)
  | ArgInt (z : Z)
  | ArgStr (s : string)
  | ArgVal (v : pyval).

Inductive event : Type :=
  | EvGet (url : string) (params : list (string * string))
  | EvLog (lvl : level) (fmt : string) (args : list logarg).

Definition journal : Type := list event.

Definition M (A : Type) : Type := journal -> res A * journal.

Definition ret {A : Type} (a : A) : M A := fun j => (Ok a, j).

Definition raise {A : Type} (e : exn) : M A := fun j => (Raise e, j).

Definition lift {A : Type} (r : res A) : M A := fun j => (r, j).

Definition bind {A B : Type} (m : M A) (f : A -> M B) : M B :=
  fun j =>
    match m j with
    | (Ok a, j') => f a j'
    | (Raise e, j') => (Raise e, j')
    end.

Definition emit (ev : event) : M unit := fun j => (Ok tt, (j ++ [ev])%list).

(** [try: m  except Exception as e: h e]. *)
Definition try_except {A : Type} (m : M A) (h : exn -> M A) : M A :=
  fun j =>
    match m j with
    | (Ok a, j') => (Ok a, j')
    | (Raise e, j') => h e j'
    end.

(** [try: m  except ValueError: h]; any other exception propagates. *)
Definition try_except_ValueError {A : Type} (m : M A) (h : M A) : M A :=
  try_except m (fun e =>
    match e with
    | ValueError => h
    | _ => raise e
    end).

Declare Scope monad_scope.
Delimit Scope monad_scope with monad.
Notation "x <- m ;; k" := (bind m (fun x => k))
  (at level 61, m at next level, right associativity) : monad_scope.
Notation "m ;; k" := (bind m (fun _ => k))
  (at level 61, right associativity) : monad_scope.
Local Open Scope monad_scope.

Definition result {A : Type} (m : M A) (j : journal) : res A := fst (m j).
Definition effects {A : Type} (m : M A) (j : journal) : journal := snd (m j).

Definition log (lvl : level) (fmt : string) (args : list logarg) : M unit :=
  emit (EvLog lvl fmt args).

(** ** The upstream services *)

(** What a response object answers: whether the status is a success (so
    that [raise_for_status] returns), the body as text, and the outcome of
    decoding the body with [.json()]. *)
Record response : Type := {
  status_ok : bool;
  text : string;
  json : res pyval
}.

(** One outcome per request; [None] when [requests.get] itself raises
    (connection error, timeout). *)
Record world : Type := {
  explorer_coinsupply : option response;
  coingecko_supply : option response;
  mexc_ticker : option response;
  coingecko_price : option response
}.

Definition requests_get (url : string) (params : list (string * string))
    (o : option response) : M response :=
  emit (EvGet url params) ;;
  match o with
  | Some r => ret r
  | None => raise RequestException
  end.

Definition raise_for_status (r : response) : M unit :=
  if status_ok r then ret tt else raise RequestException.

(** ** The program *)

(** Backup manual circulating supply. *)
Definition MANUAL_CIRC_SUPPLY : Z := 8000000000000.

Definition COINGECKO_URL : string := "https://api.coingecko.com/api/v3/coins/markets".
Definition COINGECKO_PARAMS : list (string * string) :=
  [("vs_currency", "usd"); ("ids", "nexa")].
Definition EXPLORER_URL : string := "https://explorer.nexa.org/api/coinsupply".
Definition MEXC_URL : string := "https://api.mexc.com/api/v3/ticker/price?symbol=NEXAUSDT".

(** The test [data and isinstance(data, list) and field in data[0]] of
    lines 30 and 93; the operands are evaluated from the left and only as
    far as needed. *)
Definition markets_guard (field : string) (data : pyval) : res bool :=
  if truthy data then
    if isinstance_list data then
      res_bind (getitem_0 data) (fun first => py_in field first)
    else Ok false
  else Ok false.

(** The test [isinstance(data, dict) and "price" in data] of line 77. *)
Definition ticker_guard (data : pyval) : res bool :=
  if isinstance_dict data then py_in "price" data else Ok false.

Section Program.

Context {B : Builtins}.

(** The body of the [try] statement of [get_cg_supply] (lines 27 to 32);
    [Some n] stands for [return n], [None] for reaching the end of the
    body, after which the function returns [None]. *)
Definition get_cg_supply_try (w : world) : M (option Z) :=
  res <- requests_get COINGECKO_URL COINGECKO_PARAMS (coingecko_supply w) ;;
  raise_for_status res ;;
  data <- lift (json res) ;;
  guard <- lift (markets_guard "circulating_supply" data) ;;
  if guard : bool then
    first <- lift (getitem_0 data) ;;
    field <- lift (getitem_key first "circulating_supply") ;;
    n <- lift (py_int field) ;;
    ret (Some n)
  else
    log WARNING "CoinGecko returned unexpected format: %r" [ArgVal data] ;;
    ret None.

(** Fetch circulating supply from CoinGecko markets endpoint. *)
Definition get_cg_supply (w : world) : M (option Z) :=
  try_except (get_cg_supply_try w)
    (fun e => log WARNING "CoinGecko supply error: %s" [ArgExn e] ;; ret None).

(** The inner [try] body of [get_circ_supply] (lines 48 and 49):
    [int(r.json())]. *)
Definition explorer_json_number (r : response) : M Z :=
  data <- lift (json r) ;;
  lift (py_int data).

(** Line 54: [int(r.text.strip())]. *)
Definition explorer_text_number (r : response) : M Z :=
  lift (py_int (PStr (str_strip (text r)))).

(** The outer [try] body of [get_circ_supply] (lines 42 to 54): the
    explorer tier.  The inner handler names [ValueError] only. *)
Definition explorer_try (w : world) : M Z :=
  r <- requests_get EXPLORER_URL [] (explorer_coinsupply w) ;;
  raise_for_status r ;;
  log INFO "Raw coinsupply response: %r" [ArgStr (text r)] ;;
  parsed <- try_except_ValueError
              (n <- explorer_json_number r ;; ret (Some n))
              (log DEBUG "Not JSON-number, falling back to text parse" [] ;;
               ret None) ;;
  match parsed with
  | Some n => ret n
  | None => explorer_text_number r
  end.

(** The statements of [get_circ_supply] that follow the [try] statement
    (lines 60 to 67): the CoinGecko tier and the manual tier. *)
Definition supply_fallback (w : world) : M Z :=
  cg_supply <- get_cg_supply w ;;
  match cg_supply with
  | Some n =>
      log INFO "Using CoinGecko supply: %d" [ArgInt n] ;;
      ret n
  | None =>
      log WARNING "Falling back to manual supply: %d"
        [ArgInt MANUAL_CIRC_SUPPLY] ;;
      ret MANUAL_CIRC_SUPPLY
  end.

(** Fetch circulating supply (Explorer, then CoinGecko, then manual). *)
Definition get_circ_supply (w : world) : M Z :=
  tier1 <- try_except (n <- explorer_try w ;; ret (Some n))
             (fun e => log ERROR "Explorer supply error: %s" [ArgExn e] ;;
                       ret None) ;;
  match tier1 with
  | Some n => ret n
  | None => supply_fallback w
  end.

(** The body of the [try] statement of [get_mexc_price] (lines 74 to
    79). *)
Definition get_mexc_price_try (w : world) : M (option pyfloat) :=
  response <- requests_get MEXC_URL [] (mexc_ticker w) ;;
  raise_for_status response ;;
  data <- lift (json response) ;;
  guard <- lift (ticker_guard data) ;;
  if guard : bool then
    field <- lift (getitem_key data "price") ;;
    p <- lift (py_float field) ;;
    ret (Some p)
  else
    log WARNING "Unexpected MEXC API response format: %r" [ArgVal data] ;;
    ret None.

(** Fetches the latest Nexa price from MEXC API. *)
Definition get_mexc_price (w : world) : M (option pyfloat) :=
  try_except (get_mexc_price_try w)
    (fun e => log ERROR "MEXC API Error: {e}" [ArgExn e] ;; ret None).

(** The body of the [try] statement of [get_cg_price] (lines 90 to 95). *)
Definition get_cg_price_try (w : world) : M (option pyfloat) :=
  res <- requests_get COINGECKO_URL COINGECKO_PARAMS (coingecko_price w) ;;
  raise_for_status res ;;
  data <- lift (json res) ;;
  guard <- lift (markets_guard "current_price" data) ;;
  if guard : bool then
    first <- lift (getitem_0 data) ;;
    field <- lift (getitem_key first "current_price") ;;
    p <- lift (py_float field) ;;
    ret (Some p)
  else
    log WARNING "CoinGecko price returned unexpected format: %r" [ArgVal data] ;;
    ret None.

(** Fetches the latest Nexa price from CoinGecko. *)
Definition get_cg_price (w : world) : M (option pyfloat) :=
  try_except (get_cg_price_try w)
    (fun e => log ERROR "CoinGecko price error: %s" [ArgExn e] ;; ret None).

End Program.

Definition escape_chars : list string :=
  ["_"; "*"; "["; "]"; "("; ")"; "~"; "`"; ">"; "#"; "+"; "-"; "="; "|";
   "{"; "}"; "."; "!"].

(** Escapes Telegram MarkdownV2 special characters. *)
Definition escape_markdown_v2 (text : string) : string :=
  fold_left (fun text char => str_replace char ("\" ++ char) text)
    escape_chars text.

Definition NL : string := String "010" "".

(** U+1F6A8, as UTF-8. *)
Definition SIREN : string :=
  String "240" (String "159" (String "154" (String "168" ""))).

Definition ERROR_MESSAGE : string :=
  SIREN ++ " Error: Unable to fetch price from MEXC or CoinGecko.".

(** The quantities derived from the price and the supply, in the order
    the program computes them. *)
Record quantities : Type := {
  market_cap : pyfloat;
  circ_supply_trillions : pyfloat;
  market_cap_millions : pyfloat;
  price_per_million : pyfloat;
  price_per_billion : pyfloat
}.

(** Lines 124 to 130. *)
Definition derive (nexa_price : pyfloat) (circ_supply : Z) : res quantities :=
  res_bind (float_mul_int nexa_price circ_supply) (fun market_cap =>
  res_bind (int_truediv circ_supply 1000000000000) (fun circ_supply_trillions =>
  res_bind (float_div_int market_cap 1000000) (fun market_cap_millions =>
  res_bind (float_mul_int nexa_price 1000000) (fun price_per_million =>
  res_bind (float_mul_int nexa_price 1000000000) (fun price_per_billion =>
  Ok {| market_cap := market_cap;
        circ_supply_trillions := circ_supply_trillions;
        market_cap_millions := market_cap_millions;
        price_per_million := price_per_million;
        price_per_billion := price_per_billion |}))))).

(** Lines 133 to 136. *)
Definition market_cap_text (q : quantities) : string :=
  "Market Cap: $" ++ format_f 2 true (market_cap_millions q) ++ "M" ++ NL ++
  "Circ Supply: " ++ format_f 3 false (circ_supply_trillions q) ++ "T NEXA".

(** Lines 139 to 145: the report before escaping. *)
Definition message (source : string) (nexa_price : pyfloat) (q : quantities)
    : string :=
  "NEXA/USDT Price (" ++ source ++ ")" ++ NL ++ NL ++
  format_f 8 false nexa_price ++ "$ per NEXA" ++ NL ++
  format_f 2 true (price_per_million q) ++ "$ per 1M NEXA" ++ NL ++
  format_f 0 true (price_per_billion q) ++ "$ per 1B NEXA" ++ NL ++ NL ++
  market_cap_text q.

Section Report.

Context {B : Builtins}.

(** The first statements of [get_nexa_price] (lines 112 to 118): the
    price and the label of the source it came from, MEXC first, CoinGecko
    when MEXC gave nothing. *)
Definition fetch_price (w : world) : M (option pyfloat * string) :=
  nexa_price <- get_mexc_price w ;;
  match nexa_price with
  | Some _ => ret (nexa_price, "MEXC")
  | None =>
      log INFO "Falling back to CoinGecko for price" [] ;;
      nexa_price <- get_cg_price w ;;
      ret (nexa_price, "CoinGecko")
  end.

(** Gets the price (MEXC, then CoinGecko) and calculates market cap. *)
Definition get_nexa_price (w : world) : M string :=
  ps <- fetch_price w ;;
  let '(nexa_price, source) := ps in
  match nexa_price with
  | None => ret ERROR_MESSAGE
  | Some nexa_price =>
      circ_supply <- get_circ_supply w ;;
      q <- lift (derive nexa_price circ_supply) ;;
      ret (escape_markdown_v2 (message source nexa_price q))
  end.

End Report.

(** ** The command handler *)

(** The call [update.message.reply_text(text, parse_mode=...)] that the
    handler makes. *)
Record reply : Type := {
  reply_text : string;
  parse_mode : string
}.

(** Send Nexa price details when /price or /p is called: the handler
    returns the reply it sends. *)
Definition price {B : Builtins} (w : world) : M reply :=
  message <- get_nexa_price w ;;
  ret {| reply_text := message; parse_mode := "MarkdownV2" |}.

(** ** The built-in conversions on ASCII decimal notation

    An instance of [Builtins] for running the program on concrete
    responses.  It covers ASCII text: [strip] removes the white space
    characters below ['\x80']; [int] and [float] read an optional sign and
    decimal digits, with an optional fractional part for [float], between
    blanks.  Every statement that quantifies over the responses is proved
    for an arbitrary instance. *)

(** The characters that [str.strip] removes. *)
Definition is_space (c : ascii) : bool :=
  let n := nat_of_ascii c in
  (((9 <=? n) && (n <=? 13)) || ((28 <=? n) && (n <=? 32)))%nat.

(** The characters that [int] and [float] skip around a number. *)
Definition is_blank (c : ascii) : bool :=
  let n := nat_of_ascii c in
  (((9 <=? n) && (n <=? 13)) || (n =? 32))%nat.

Fixpoint lstrip (space : ascii -> bool) (l : list ascii) : list ascii :=
  match l with
  | c :: rest => if space c then lstrip space rest else l
  | [] => []
  end.

Definition trim (space : ascii -> bool) (l : list ascii) : list ascii :=
  rev (lstrip space (rev (lstrip space l))).

Definition strip (s : string) : string :=
  string_of_list_ascii (trim is_space (list_ascii_of_string s)).

Definition digit_value (c : ascii) : option Z :=
  let n := nat_of_ascii c in
  if ((48 <=? n) && (n <=? 57))%nat then Some (Z.of_nat n - 48) else None.

(** The number written by a list of digits, after the digits [acc]. *)
Fixpoint parse_digits (acc : Z) (l : list ascii) : option Z :=
  match l with
  | [] => Some acc
  | c :: rest =>
      match digit_value c with
      | Some d => parse_digits (10 * acc + d) rest
      | None => None
      end
  end.

Definition split_sign (l : list ascii) : bool * list ascii :=
  match l with
  | c :: rest =>
      if Ascii.eqb c "-" then (true, rest)
      else if Ascii.eqb c "+" then (false, rest)
      else (false, l)
  | [] => (false, [])
  end.

Definition decimal_int (s : string) : option Z :=
  let '(neg, ds) := split_sign (trim is_blank (list_ascii_of_string s)) in
  match ds with
  | [] => None
  | _ :: _ =>
      match parse_digits 0 ds with
      | Some n => Some (cond_Zopp neg n)
      | None => None
      end
  end.

(** The digits before the first ["."], and the ones after it if any. *)
Fixpoint split_point (l : list ascii) : list ascii * option (list ascii) :=
  match l with
  | [] => ([], None)
  | c :: rest =>
      if Ascii.eqb c "." then ([], Some rest)
      else let '(ip, fp) := split_point rest in (c :: ip, fp)
  end.

(** The float nearest to [n / 10^k]. *)
Definition float_of_decimal (neg : bool) (n : Z) (k : nat) : pyfloat :=
  if n =? 0 then S754_zero neg
  else
    let '(q, e, l) := SFdiv_core_binary prec emax n 0 (10 ^ Z.of_nat k) 0 in
    binary_round_aux prec emax neg q e l.

Definition decimal_float (s : string) : option pyfloat :=
  let '(neg, body) := split_sign (trim is_blank (list_ascii_of_string s)) in
  let '(ip, fp) := split_point body in
  let fp := match fp with Some l => l | None => [] end in
  match (ip ++ fp)%list with
  | [] => None
  | _ :: _ =>
      match parse_digits 0 (ip ++ fp)%list with
      | Some n => Some (float_of_decimal neg n (List.length fp))
      | None => None
      end
  end.

Definition decimal_builtins : Builtins :=
  {| str_strip := strip;
     int_of_str := decimal_int;
     float_of_str := decimal_float |}.

(** ** Sample responses *)

(** The float written [0.00012345]. *)
Definition sample_price : pyfloat := float_of_decimal false 12345 8.

Definition DQ : string := String "034" "".

Definition ok_response (body : string) (decoded : res pyval) : response :=
  {| status_ok := true; text := body; json := decoded |}.

(** The MEXC ticker answering a price of 0.00012345. *)
Definition mexc_sample : response :=
  ok_response
    ("{" ++ DQ ++ "symbol" ++ DQ ++ ":" ++ DQ ++ "NEXAUSDT" ++ DQ ++ "," ++
     DQ ++ "price" ++ DQ ++ ":" ++ DQ ++ "0.00012345" ++ DQ ++ "}")
    (Ok (PDict [("symbol", PStr "NEXAUSDT"); ("price", PStr "0.00012345")])).

(** The explorer answering a supply of 8,000,000,000,000. *)
Definition explorer_sample : response :=
  ok_response "8000000000000" (Ok (PInt 8000000000000)).

(** MEXC and the explorer answer. *)
Definition world_up : world :=
  {| explorer_coinsupply := Some explorer_sample;
     coingecko_supply := None;
     mexc_ticker := Some mexc_sample;
     coingecko_price := None |}.

(** No service can be reached. *)
Definition world_down : world :=
  {| explorer_coinsupply := None;
     coingecko_supply := None;
     mexc_ticker := None;
     coingecko_price := None |}.

(** The explorer answering the JSON value [null]. *)
Definition explorer_null : response := ok_response "null" (Ok PNone).

(** The price is available, the explorer answers [null] and CoinGecko
    cannot be reached for the supply. *)
Definition world_null : world :=
  {| explorer_coinsupply := Some explorer_null;
     coingecko_supply := None;
     mexc_ticker := Some mexc_sample;
     coingecko_price := None |}.

(** The explorer answering plain text that is not JSON. *)
Definition explorer_plain : response :=
  ok_response "+8000000000000" (Raise ValueError).

Definition world_plain : world :=
  {| explorer_coinsupply := Some explorer_plain;
     coingecko_supply := None;
     mexc_ticker := Some mexc_sample;
     coingecko_price := None |}.

(** CoinGecko answering one market, with its price and its supply. *)
Definition coingecko_sample : response :=
  ok_response
    ("[{" ++ DQ ++ "id" ++ DQ ++ ":" ++ DQ ++ "nexa" ++ DQ ++ "," ++
     DQ ++ "current_price" ++ DQ ++ ":0.00012345," ++
     DQ ++ "circulating_supply" ++ DQ ++ ":8000000000000}]")
    (Ok (PList [PDict [("id", PStr "nexa");
                       ("current_price", PFloat sample_price);
                       ("circulating_supply", PInt 8000000000000)]])).

(** Only CoinGecko answers. *)
Definition world_coingecko : world :=
  {| explorer_coinsupply := None;
     coingecko_supply := Some coingecko_sample;
     mexc_ticker := None;
     coingecko_price := Some coingecko_sample |}.

(** CoinGecko answering an empty list of markets. *)
Definition coingecko_empty : response := ok_response "[]" (Ok (PList [])).

Definition world_empty_markets : world :=
  {| explorer_coinsupply := None;
     coingecko_supply := Some coingecko_empty;
     mexc_ticker := None;
     coingecko_price := Some coingecko_empty |}.

(** 7999999999999.5, a supply with a fractional part. *)
Definition fractional_supply : pyfloat :=
  S754_finite false 8191999999999488 (-10).

(** CoinGecko answering a market whose supply is fractional. *)
Definition coingecko_fractional : response :=
  ok_response
    ("[{" ++ DQ ++ "circulating_supply" ++ DQ ++ ":7999999999999.5}]")
    (Ok (PList [PDict [("circulating_supply", PFloat fractional_supply)]])).

(** The explorer answering a JSON float. *)
Definition explorer_fractional : response :=
  ok_response "7999999999999.5" (Ok (PFloat fractional_supply)).

Definition world_fractional : world :=
  {| explorer_coinsupply := None;
     coingecko_supply := Some coingecko_fractional;
     mexc_ticker := Some mexc_sample;
     coingecko_price := None |}.

Definition world_fractional_explorer : world :=
  {| explorer_coinsupply := Some explorer_fractional;
     coingecko_supply := None;
     mexc_ticker := Some mexc_sample;
     coingecko_price := None |}.

(** ** Vocabulary of the specification *)

(** Membership in the reserved set of the markup. *)
Definition reserved (c : ascii) : bool :=
  existsb (String.eqb (String c "")) escape_chars.

(** Escaping as the specification words it: one pass over the text that
    prefixes each occurrence of a reserved character with a backslash. *)
Fixpoint escape_pass (text : string) : string :=
  match text with
  | EmptyString => EmptyString
  | String c rest =>
      if reserved c then String "\" (String c (escape_pass rest))
      else String c (escape_pass rest)
  end.

(** The same pass for an arbitrary set [cs] of characters to escape. *)
Fixpoint escape_with (cs : list ascii) (text : string) : string :=
  match text with
  | EmptyString => EmptyString
  | String c rest =>
      if existsb (Ascii.eqb c) cs
      then String "\" (String c (escape_with cs rest))
      else String c (escape_with cs rest)
  end.

(** The number of reserved characters of a text. *)
Fixpoint count_reserved (text : string) : nat :=
  match text with
  | EmptyString => O
  | String c rest => ((if reserved c then 1 else 0) + count_reserved rest)%nat
  end.

Fixpoint occurs (c : ascii) (text : string) : bool :=
  match text with
  | EmptyString => false
  | String a rest => Ascii.eqb c a || occurs c rest
  end.

(** Every reserved character is preceded by exactly one backslash: the
    character before it is a backslash and the one before that is not.
    [before1] and [before2] tell whether the last character read, and the
    one before it, are backslashes. *)
Fixpoint escaped_from (before2 before1 : bool) (text : string) : bool :=
  match text with
  | EmptyString => true
  | String c rest =>
      (if reserved c then before1 && negb before2 else true) &&
      escaped_from before1 (Ascii.eqb c "\") rest
  end.

Definition escaped (text : string) : bool := escaped_from false false text.

(** Removal of the backslash that precedes a reserved character. *)
Fixpoint unescape (text : string) : string :=
  match text with
  | String a (String c rest as tail) =>
      if Ascii.eqb a "\" && reserved c then String c (unescape rest)
      else String a (unescape tail)
  | _ => text
  end.

(** What [get_nexa_price] returns once the price and the label of its
    source are known. *)
Definition report_of {B : Builtins} (w : world) (source : string)
    (nexa_price : pyfloat) : res string :=
  res_bind (result (get_circ_supply w) []) (fun circ_supply =>
  res_bind (derive nexa_price circ_supply) (fun q =>
  Ok (escape_markdown_v2 (message source nexa_price q)))).

(** The request that every call of [get_circ_supply] sends first. *)
Definition explorer_request : event := EvGet EXPLORER_URL [].

(** The call to [logging.debug] that precedes the parsing of the body as
    plain text. *)
Definition text_parse_event : event :=
  EvLog DEBUG "Not JSON-number, falling back to text parse" [].

(** A computation is [appending] when its result does not depend on the
    journal it starts from and the journal it leaves is the one it was
    given, followed by its own events. *)
Definition appending {A : Type} (m : M A) : Prop :=
  forall j, m j = (result m [], (j ++ effects m [])%list).

(** [m] keeps the property [P] of the journal. *)
Definition keeps {A : Type} (P : journal -> Prop) (m : M A) : Prop :=
  forall j, P j -> P (effects m j).

(** The journal does not hold the event [ev]. *)
Definition absent (ev : event) (j : journal) : Prop := ~ In ev j.

(** The body is parsed as plain text whenever [int(r.json())] fails, for
    one response [r] of the explorer in [w]. *)
Definition text_parse_follows_failure {B : Builtins} (w : world)
    (r : response) : Prop :=
  is_ok (result (explorer_json_number r) []) = false ->
  In text_parse_event (effects (get_circ_supply w) []).

(** A decoded body from which the markets endpoints yield nothing: an
    empty list, a value that is not a list, or a list whose first element
    is not a dict that holds [field]. *)
Definition unusable_markets (field : string) (data : pyval) : Prop :=
  data = PList [] \/
  isinstance_list data = false \/
  exists first rest,
    data = PList (first :: rest) /\ is_ok (getitem_key first field) = false.

(** [z] is the value [(-1)^s * m * 2^e] with its fractional part dropped:
    it has the sign of the value and [|z| <= |value| < |z| + 1]. *)
Definition truncation_of (s : bool) (m : positive) (e : Z) (z : Z) : Prop :=
  (if s then z <= 0 else 0 <= z) /\
  Z.abs z * 2 ^ Z.max 0 (- e) <= Zpos m * 2 ^ Z.max 0 e
    < (Z.abs z + 1) * 2 ^ Z.max 0 (- e).

(** No reserved character of the text comes directly after a backslash;
    [after_backslash] tells whether the last character read is one. *)
Fixpoint clean_from (after_backslash : bool) (text : string) : bool :=
  match text with
  | EmptyString => true
  | String c rest =>
      negb (after_backslash && reserved c) &&
      clean_from (Ascii.eqb c "\") rest
  end.

Definition clean (text : string) : bool := clean_from false text.

(** The addresses of the requests of a journal, in order. *)
Definition urls (j : journal) : list string :=
  flat_map (fun ev => match ev with
                      | EvGet url _ => [url]
                      | EvLog _ _ _ => []
                      end) j.

(** The levels of the log records of a journal, in order. *)
Definition levels (j : journal) : list level :=
  flat_map (fun ev => match ev with
                      | EvGet _ _ => []
                      | EvLog lvl _ _ => [lvl]
                      end) j.

(** Whatever its outcome, [m] sends the requests [l], in this order. *)
Definition sends {A : Type} (l : list string) (m : M A) : Prop :=
  forall j, urls (effects m j) = (urls j ++ l)%list.

(** The requests of one invocation of [get_nexa_price], read off the
    outcomes of the tiers: MEXC; CoinGecko if MEXC gave no price; then,
    if there is a price, the explorer, and CoinGecko again if the
    explorer tier failed. *)
Definition expected_requests {B : Builtins} (w : world) : list string :=
  (MEXC_URL ::
   match result (get_mexc_price w) [] with
   | Ok (Some _) => []
   | _ => [COINGECKO_URL]
   end ++
   match result (fetch_price w) [] with
   | Ok (Some _, _) =>
       EXPLORER_URL ::
       match result (explorer_try w) [] with
       | Ok _ => []
       | Raise _ => [COINGECKO_URL]
       end
   | _ => []
   end)%list.

(** The explorer answering a supply of 2^1024. *)
Definition explorer_huge : response :=
  ok_response
    "179769313486231590772930519078902473361797697894230657273430081157732675805500963132708477322407536021120113879871393357658789768814416622492847430639474124377767893424865485276302219601246094119453082952085005768838150682342462881473913110540827237163350510684586298239947245938479716304835356329624224137216"
    (Ok (PInt (2 ^ 1024))).

Definition world_huge : world :=
  {| explorer_coinsupply := Some explorer_huge;
     coingecko_supply := None;
     mexc_ticker := Some mexc_sample;
     coingecko_price := None |}.

(** * Properties *)

(** ** The journal is only appended to *)

Lemma appending_ret {A : Type} (a : A) : appending (ret a).
Proof. intro j. unfold ret, result, effects. cbn. now rewrite app_nil_r. Qed.

Lemma appending_raise {A : Type} (e : exn) : appending (@raise A e).
Proof. intro j. unfold raise, result, effects. cbn. now rewrite app_nil_r. Qed.

Lemma appending_lift {A : Type} (r : res A) : appending (lift r).
Proof. intro j. unfold lift, result, effects. cbn. now rewrite app_nil_r. Qed.

Lemma appending_emit (ev : event) : appending (emit ev).
Proof. intro j. reflexivity. Qed.

Lemma appending_log lvl fmt args : appending (log lvl fmt args).
Proof. apply appending_emit. Qed.

Lemma appending_bind {A B : Type} (m : M A) (f : A -> M B) :
  appending m -> (forall a, appending (f a)) -> appending (bind m f).
Proof.
  intros Hm Hf j. unfold result, effects, bind.
  rewrite (Hm j), (Hm []). cbn [app].
  destruct (result m []) as [a | e]; cbn.
  - rewrite (Hf a (j ++ effects m [])%list), (Hf a (effects m [])).
    cbn. now rewrite app_assoc.
  - reflexivity.
Qed.

Lemma appending_try_except {A : Type} (m : M A) (h : exn -> M A) :
  appending m -> (forall e, appending (h e)) -> appending (try_except m h).
Proof.
  intros Hm Hh j. unfold result, effects, try_except.
  rewrite (Hm j), (Hm []). cbn [app].
  destruct (result m []) as [a | e]; cbn.
  - reflexivity.
  - rewrite (Hh e (j ++ effects m [])%list), (Hh e (effects m [])).
    cbn. now rewrite app_assoc.
Qed.

Lemma appending_try_except_ValueError {A : Type} (m h : M A) :
  appending m -> appending h -> appending (try_except_ValueError m h).
Proof.
  intros Hm Hh. apply appending_try_except; [assumption |].
  intros []; try apply appending_raise; assumption.
Qed.

Lemma appending_requests_get url params o : appending (requests_get url params o).
Proof.
  apply appending_bind; [apply appending_emit |].
  intros _. destruct o; [apply appending_ret | apply appending_raise].
Qed.

Lemma appending_raise_for_status r : appending (raise_for_status r).
Proof.
  unfold raise_for_status.
  destruct (status_ok r); [apply appending_ret | apply appending_raise].
Qed.

Create HintDb journal.

#[local] Hint Resolve appending_ret appending_raise appending_lift
  appending_emit appending_log appending_requests_get
  appending_raise_for_status : journal.

(** Breaks an [appending] goal down along the structure of the program. *)
Ltac appending_step :=
  match goal with
  | |- appending (bind _ _) => apply appending_bind; [| intros ?]
  | |- appending (try_except_ValueError _ _) =>
      apply appending_try_except_ValueError
  | |- appending (try_except _ _) => apply appending_try_except; [| intros ?]
  | |- appending (if ?b then _ else _) => destruct b
  | |- appending (match ?x with _ => _ end) => destruct x
  | |- appending _ => solve [auto with journal]
  end.

Ltac appending_tac := repeat appending_step.

Section Appending.

Context {B : Builtins}.

Lemma appending_get_cg_supply w : appending (get_cg_supply w).
Proof. unfold get_cg_supply, get_cg_supply_try. appending_tac. Qed.

Lemma appending_explorer_json_number r : appending (explorer_json_number r).
Proof. unfold explorer_json_number. appending_tac. Qed.

Lemma appending_explorer_text_number r : appending (explorer_text_number r).
Proof. unfold explorer_text_number. appending_tac. Qed.

Lemma appending_explorer_try w : appending (explorer_try w).
Proof.
  pose proof appending_explorer_json_number.
  pose proof appending_explorer_text_number.
  unfold explorer_try. appending_tac.
Qed.

Lemma appending_supply_fallback w : appending (supply_fallback w).
Proof.
  unfold supply_fallback.
  pose proof (appending_get_cg_supply w).
  appending_tac.
Qed.

Lemma appending_get_circ_supply w : appending (get_circ_supply w).
Proof.
  unfold get_circ_supply.
  pose proof (appending_supply_fallback w).
  pose proof (appending_explorer_try w).
  appending_tac.
Qed.

Lemma appending_get_mexc_price w : appending (get_mexc_price w).
Proof. unfold get_mexc_price, get_mexc_price_try. appending_tac. Qed.

Lemma appending_get_cg_price w : appending (get_cg_price w).
Proof. unfold get_cg_price, get_cg_price_try. appending_tac. Qed.

Lemma appending_fetch_price w : appending (fetch_price w).
Proof.
  unfold fetch_price.
  pose proof (appending_get_mexc_price w).
  pose proof (appending_get_cg_price w).
  appending_tac.
Qed.

Lemma appending_get_nexa_price w : appending (get_nexa_price w).
Proof.
  unfold get_nexa_price.
  pose proof (appending_fetch_price w).
  pose proof (appending_get_circ_supply w).
  appending_tac.
Qed.

End Appending.

#[local] Hint Resolve appending_explorer_json_number
  appending_explorer_text_number appending_explorer_try
  appending_get_cg_supply appending_supply_fallback
  appending_get_circ_supply appending_get_mexc_price
  appending_get_cg_price appending_fetch_price appending_get_nexa_price
  : journal.

Lemma result_appending {A : Type} (m : M A) (j : journal) :
  appending m -> result m j = result m [].
Proof. intro H. unfold result at 1. now rewrite (H j). Qed.

Lemma effects_appending {A : Type} (m : M A) (j : journal) :
  appending m -> effects m j = (j ++ effects m [])%list.
Proof. intro H. unfold effects at 1. now rewrite (H j). Qed.

Lemma result_bind {A B : Type} (m : M A) (f : A -> M B) (j : journal) :
  appending m -> (forall a, appending (f a)) ->
  result (bind m f) j = res_bind (result m []) (fun a => result (f a) []).
Proof.
  intros Hm Hf. unfold result at 1. unfold bind. rewrite (Hm j).
  destruct (result m []) as [a | e]; cbn; [| reflexivity].
  now rewrite (Hf a).
Qed.

Lemma result_try_except {A : Type} (m : M A) (h : exn -> M A) (j : journal) :
  appending m -> (forall e, appending (h e)) ->
  result (try_except m h) j =
    match result m [] with
    | Ok a => Ok a
    | Raise e => result (h e) []
    end.
Proof.
  intros Hm Hh. unfold result at 1. unfold try_except. rewrite (Hm j).
  destruct (result m []) as [a | e]; cbn; [reflexivity |].
  now rewrite (Hh e).
Qed.

Lemma effects_bind {A B : Type} (m : M A) (f : A -> M B) :
  appending m -> (forall a, appending (f a)) ->
  effects (bind m f) [] =
    (effects m [] ++
     match result m [] with
     | Ok a => effects (f a) []
     | Raise _ => []
     end)%list.
Proof.
  intros Hm Hf. unfold effects at 1. unfold bind. rewrite (Hm []).
  destruct (result m []) as [a | e]; cbn.
  - now rewrite (Hf a).
  - now rewrite app_nil_r.
Qed.

Lemma effects_try_except {A : Type} (m : M A) (h : exn -> M A) :
  appending m -> (forall e, appending (h e)) ->
  effects (try_except m h) [] =
    (effects m [] ++
     match result m [] with
     | Ok _ => []
     | Raise e => effects (h e) []
     end)%list.
Proof.
  intros Hm Hh. unfold effects at 1. unfold try_except. rewrite (Hm []).
  destruct (result m []) as [a | e]; cbn.
  - now rewrite app_nil_r.
  - now rewrite (Hh e).
Qed.

(** A handler that returns a value turns every outcome into a value. *)
Lemma try_except_total {A : Type} (m : M A) (h : exn -> M A) (j : journal) :
  (forall e j', exists a, result (h e) j' = Ok a) ->
  exists a, result (try_except m h) j = Ok a.
Proof.
  intro Hh. unfold result, try_except.
  destruct (m j) as [[a | e] j']; cbn.
  - now exists a.
  - apply Hh.
Qed.

Section Fetchers.

Context {B : Builtins}.

Lemma get_cg_supply_total w j : exists o, result (get_cg_supply w) j = Ok o.
Proof.
  apply try_except_total. intros e j'. now exists None.
Qed.

Lemma get_mexc_price_total w j : exists o, result (get_mexc_price w) j = Ok o.
Proof.
  apply try_except_total. intros e j'. now exists None.
Qed.

Lemma get_cg_price_total w j : exists o, result (get_cg_price w) j = Ok o.
Proof.
  apply try_except_total. intros e j'. now exists None.
Qed.

(** The CoinGecko value when there is one, the manual constant if not. *)
Lemma supply_fallback_result w j :
  result (supply_fallback w) j =
    match result (get_cg_supply w) [] with
    | Ok (Some n) => Ok n
    | Ok None => Ok MANUAL_CIRC_SUPPLY
    | Raise e => Raise e
    end.
Proof.
  unfold supply_fallback.
  rewrite result_bind; [| appending_tac | intros; appending_tac].
  destruct (result (get_cg_supply w) []) as [[n |] | e']; reflexivity.
Qed.

(** The supply is the outcome of the first tier that gives one. *)
Lemma get_circ_supply_result w j :
  result (get_circ_supply w) j =
    match result (explorer_try w) [] with
    | Ok n => Ok n
    | Raise _ => result (supply_fallback w) []
    end.
Proof.
  unfold get_circ_supply.
  rewrite result_bind; [| appending_tac | intros; appending_tac].
  rewrite result_try_except; [| appending_tac | intros; appending_tac].
  rewrite result_bind; [| appending_tac | intros; appending_tac].
  destruct (result (explorer_try w) []) as [n | e]; reflexivity.
Qed.

(** The events of a call: those of the explorer tier and, when that tier
    raised, the error that is logged and the events of the later tiers. *)
Lemma get_circ_supply_effects w :
  effects (get_circ_supply w) [] =
    (effects (explorer_try w) [] ++
     match result (explorer_try w) [] with
     | Ok _ => []
     | Raise e =>
         EvLog ERROR "Explorer supply error: %s" [ArgExn e]
         :: effects (supply_fallback w) []
     end)%list.
Proof.
  unfold get_circ_supply.
  rewrite effects_bind; [| appending_tac | intros; appending_tac].
  rewrite effects_try_except; [| appending_tac | intros; appending_tac].
  rewrite effects_bind; [| appending_tac | intros; appending_tac].
  rewrite result_try_except; [| appending_tac | intros; appending_tac].
  rewrite result_bind; [| appending_tac | intros; appending_tac].
  destruct (result (explorer_try w) []) as [n | e]; cbn.
  - now rewrite !app_nil_r.
  - now rewrite app_nil_r, <- app_assoc.
Qed.

(** The price and its label are those of the first tier that gives one. *)
Lemma fetch_price_result w j :
  result (fetch_price w) j =
    match result (get_mexc_price w) [] with
    | Ok (Some p) => Ok (Some p, "MEXC")
    | Ok None =>
        match result (get_cg_price w) [] with
        | Ok o => Ok (o, "CoinGecko")
        | Raise e => Raise e
        end
    | Raise e => Raise e
    end.
Proof.
  pose proof (appending_get_mexc_price w) as Hmexc.
  pose proof (appending_get_cg_price w) as Hcg.
  unfold fetch_price.
  rewrite result_bind; [| appending_tac | intros; appending_tac].
  destruct (result (get_mexc_price w) []) as [[p |] | e]; cbn;
    try reflexivity.
  rewrite result_bind; [| appending_tac | intros; appending_tac].
  cbn. rewrite result_bind; [| appending_tac | intros; appending_tac].
  destruct (result (get_cg_price w) []) as [o | e']; reflexivity.
Qed.

(** The report is built from what the two fetchers returned. *)
Lemma get_nexa_price_result w j :
  result (get_nexa_price w) j =
    match result (fetch_price w) [] with
    | Ok (None, _) => Ok ERROR_MESSAGE
    | Ok (Some nexa_price, source) =>
        res_bind (result (get_circ_supply w) []) (fun circ_supply =>
        res_bind (derive nexa_price circ_supply) (fun q =>
        Ok (escape_markdown_v2 (message source nexa_price q))))
    | Raise e => Raise e
    end.
Proof.
  pose proof (appending_fetch_price w) as Hfp.
  pose proof (appending_get_circ_supply w) as Hcs.
  unfold get_nexa_price.
  rewrite result_bind; [| appending_tac | intros; appending_tac].
  destruct (result (fetch_price w) []) as [[[p |] source] | e]; cbn;
    try reflexivity.
  rewrite result_bind; [| appending_tac | intros; appending_tac].
  destruct (result (get_circ_supply w) []) as [n | e']; cbn;
    [| reflexivity].
  rewrite result_bind; [| appending_tac | intros; appending_tac].
  unfold result, lift. cbn. destruct (derive p n); reflexivity.
Qed.

End Fetchers.

(** C1: whichever tiers succeed, [get_circ_supply] returns a supply and
    never raises: the explorer's value when the explorer tier gives one,
    otherwise the [circulating_supply] of CoinGecko when [get_cg_supply]
    gives one, otherwise [MANUAL_CIRC_SUPPLY]; [get_cg_supply] itself never
    raises, its failure is the value [None]. *)
Theorem get_circ_supply_tiers (B : Builtins) (w : world) (j : journal) :
  (exists o, result (get_cg_supply w) j = Ok o) /\
  result (get_circ_supply w) j =
    Ok match result (explorer_try w) [] with
       | Ok explorer_value => explorer_value
       | Raise _ =>
           match result (get_cg_supply w) [] with
           | Ok (Some coingecko_value) => coingecko_value
           | _ => MANUAL_CIRC_SUPPLY
           end
       end.
Proof.
  split; [apply get_cg_supply_total |].
  rewrite get_circ_supply_result.
  destruct (result (explorer_try w) []) as [n | e]; [reflexivity |].
  rewrite supply_fallback_result.
  destruct (get_cg_supply_total w []) as [o Ho]. rewrite Ho.
  destruct o; reflexivity.
Qed.

(** C8: two invocations of [get_nexa_price] against the same upstream
    responses return the same string (or raise the same exception): the
    outcome does not depend on the journal left by earlier invocations,
    which is the only state the program carries. *)
Theorem get_nexa_price_repeatable (B : Builtins) (w : world) (j1 j2 : journal) :
  result (get_nexa_price w) j1 = result (get_nexa_price w) j2 /\
  result (get_nexa_price w) (effects (get_nexa_price w) j1) =
    result (get_nexa_price w) j1.
Proof.
  pose proof (appending_get_nexa_price w) as H.
  split.
  - now rewrite (result_appending _ j1 H), (result_appending _ j2 H).
  - now rewrite (result_appending _ (effects _ j1) H), (result_appending _ j1 H).
Qed.

(** ** Which requests a computation sends *)

Section Keeps.

Variable P : journal -> Prop.

Lemma keeps_ret {A : Type} (a : A) : keeps P (ret a).
Proof. intros j H. exact H. Qed.

Lemma keeps_raise {A : Type} (e : exn) : keeps P (@raise A e).
Proof. intros j H. exact H. Qed.

Lemma keeps_lift {A : Type} (r : res A) : keeps P (lift r).
Proof. intros j H. exact H. Qed.

Lemma keeps_bind {A C : Type} (m : M A) (f : A -> M C) :
  keeps P m -> (forall a, keeps P (f a)) -> keeps P (bind m f).
Proof.
  intros Hm Hf j H. specialize (Hm j H).
  unfold effects, bind in *.
  destruct (m j) as [[a | e] j']; cbn in *.
  - now apply Hf.
  - exact Hm.
Qed.

Lemma keeps_try_except {A : Type} (m : M A) (h : exn -> M A) :
  keeps P m -> (forall e, keeps P (h e)) -> keeps P (try_except m h).
Proof.
  intros Hm Hh j H. specialize (Hm j H).
  unfold effects, try_except in *.
  destruct (m j) as [[a | e] j']; cbn in *.
  - exact Hm.
  - now apply Hh.
Qed.

End Keeps.

Lemma absent_snoc ev j ev' :
  absent ev j -> ev' <> ev -> absent ev (j ++ [ev'])%list.
Proof.
  intros Hj Hev Hin. apply in_app_or in Hin.
  destruct Hin as [Hin | [Heq | []]]; [now apply Hj | now apply Hev].
Qed.

Lemma absent_log ev lvl fmt args :
  EvLog lvl fmt args <> ev -> keeps (absent ev) (log lvl fmt args).
Proof. intros Hev j H. now apply absent_snoc. Qed.

Lemma absent_requests_get ev url params o :
  EvGet url params <> ev -> keeps (absent ev) (requests_get url params o).
Proof.
  intros Hev. apply keeps_bind.
  - intros j H. now apply absent_snoc.
  - intros _. destruct o; [apply keeps_ret | apply keeps_raise].
Qed.

Lemma absent_raise_for_status ev r : keeps (absent ev) (raise_for_status r).
Proof.
  unfold raise_for_status.
  destruct (status_ok r); [apply keeps_ret | apply keeps_raise].
Qed.

#[local] Hint Resolve keeps_ret keeps_raise keeps_lift
  absent_raise_for_status : journal.
#[local] Hint Extern 1 (keeps (absent _) (log _ _ _)) =>
  apply absent_log; discriminate : journal.
#[local] Hint Extern 1 (keeps (absent _) (requests_get _ _ _)) =>
  apply absent_requests_get; discriminate : journal.

Ltac keeps_step :=
  match goal with
  | |- keeps _ (bind _ _) => apply keeps_bind; [| intros ?]
  | |- keeps _ (try_except _ _) => apply keeps_try_except; [| intros ?]
  | |- keeps _ (if ?b then _ else _) => destruct b
  | |- keeps _ (match ?x with _ => _ end) => destruct x
  | |- keeps _ _ => solve [auto with journal]
  end.

Ltac keeps_tac := repeat keeps_step.

Section Requests.

Context {B : Builtins}.

Lemma idle_get_mexc_price w : keeps (absent explorer_request) (get_mexc_price w).
Proof.
  unfold get_mexc_price, get_mexc_price_try, explorer_request. keeps_tac.
Qed.

Lemma idle_get_cg_price w : keeps (absent explorer_request) (get_cg_price w).
Proof.
  unfold get_cg_price, get_cg_price_try, explorer_request. keeps_tac.
Qed.

(** Fetching the price sends nothing to the explorer. *)
Lemma idle_fetch_price w : keeps (absent explorer_request) (fetch_price w).
Proof.
  pose proof (idle_get_mexc_price w). pose proof (idle_get_cg_price w).
  unfold fetch_price, explorer_request in *. keeps_tac.
Qed.

(** The tiers after the explorer never announce a parse of the body. *)
Lemma quiet_supply_fallback w :
  keeps (absent text_parse_event) (supply_fallback w).
Proof.
  unfold supply_fallback, get_cg_supply, get_cg_supply_try, text_parse_event.
  keeps_tac.
Qed.

(** Every call of [get_circ_supply] starts with a request to the
    explorer. *)
Lemma get_circ_supply_requests w j :
  exists rest,
    effects (get_circ_supply w) j = (j ++ explorer_request :: rest)%list.
Proof.
  rewrite (effects_appending _ j (appending_get_circ_supply w)).
  assert (exists rest, effects (get_circ_supply w) [] = explorer_request :: rest)
    as [rest ->]; [| now exists rest].
  rewrite get_circ_supply_effects.
  unfold explorer_try at 1.
  rewrite effects_bind; [| appending_tac | intros; appending_tac].
  unfold requests_get at 1.
  rewrite effects_bind; [| appending_tac | intros; appending_tac].
  cbn. eexists. reflexivity.
Qed.

End Requests.

(** ** The price tiers and the error message *)

(** C2: whichever price tiers succeed, the price path of [get_nexa_price]
    uses the MEXC price with the label "MEXC" when [get_mexc_price] gives
    one, otherwise the CoinGecko [current_price] with the label
    "CoinGecko" when [get_cg_price] gives one; otherwise both fetchers
    have returned [None], neither has raised, and [get_nexa_price] detects
    it and returns the error message. *)
Theorem get_nexa_price_price_tiers (B : Builtins) (w : world) (j : journal) :
  (exists o, result (get_mexc_price w) j = Ok o) /\
  (exists o, result (get_cg_price w) j = Ok o) /\
  match result (get_mexc_price w) [] with
  | Ok (Some mexc_price) =>
      result (fetch_price w) j = Ok (Some mexc_price, "MEXC") /\
      result (get_nexa_price w) j = report_of w "MEXC" mexc_price
  | _ =>
      match result (get_cg_price w) [] with
      | Ok (Some cg_price) =>
          result (fetch_price w) j = Ok (Some cg_price, "CoinGecko") /\
          result (get_nexa_price w) j = report_of w "CoinGecko" cg_price
      | _ =>
          result (get_mexc_price w) [] = Ok None /\
          result (get_cg_price w) [] = Ok None /\
          result (fetch_price w) j = Ok (None, "CoinGecko") /\
          result (get_nexa_price w) j = Ok ERROR_MESSAGE
      end
  end.
Proof.
  split; [apply get_mexc_price_total |].
  split; [apply get_cg_price_total |].
  rewrite get_nexa_price_result, !fetch_price_result.
  destruct (get_mexc_price_total w []) as [mexc Hmexc].
  destruct (get_cg_price_total w []) as [cg Hcg].
  rewrite Hmexc, Hcg.
  destruct mexc as [p |]; [now split |].
  destruct cg as [p |]; [now split |].
  repeat split.
Qed.

(** C4: when both price fetchers give nothing, [get_nexa_price] returns
    the error message, which begins with the error marker and has no
    market-cap or supply line; it stops there: its effects are those of
    fetching the price, and no request to the explorer is among them,
    whereas every call of [get_circ_supply] sends one. *)
Theorem get_nexa_price_unavailable (B : Builtins) (w : world) (j : journal) :
  result (get_mexc_price w) [] = Ok None ->
  result (get_cg_price w) [] = Ok None ->
  result (get_nexa_price w) j = Ok ERROR_MESSAGE /\
  startswith SIREN ERROR_MESSAGE = true /\
  contains "Market Cap" ERROR_MESSAGE = false /\
  contains "Supply" ERROR_MESSAGE = false /\
  effects (get_nexa_price w) j = effects (fetch_price w) j /\
  (absent explorer_request j ->
   absent explorer_request (effects (get_nexa_price w) j)) /\
  (forall w' j', In explorer_request (effects (get_circ_supply w') j')).
Proof.
  intros Hmexc Hcg.
  assert (result (fetch_price w) [] = Ok (None, "CoinGecko")) as Hfetch
    by now rewrite fetch_price_result, Hmexc, Hcg.
  assert (effects (get_nexa_price w) j = effects (fetch_price w) j) as Heff.
  { unfold effects, get_nexa_price, bind.
    rewrite (appending_fetch_price w j), Hfetch. reflexivity. }
  split; [now rewrite get_nexa_price_result, Hfetch |].
  do 3 (split; [reflexivity |]).
  split; [exact Heff |].
  split.
  - intro Hidle. rewrite Heff. now apply idle_fetch_price.
  - intros w' j'. destruct (get_circ_supply_requests w' j') as [rest ->].
    apply in_or_app. right. now left.
Qed.

Lemma get_nexa_price_unavailable_witness :
  result (@get_mexc_price decimal_builtins world_down) [] = Ok None /\
  result (@get_cg_price decimal_builtins world_down) [] = Ok None /\
  result (@get_nexa_price decimal_builtins world_down) [] = Ok ERROR_MESSAGE.
Proof.
  split; [reflexivity |]. split; [reflexivity |].
  apply (get_nexa_price_unavailable decimal_builtins world_down []);
    reflexivity.
Defined.

(** ** Escaping *)

Lemma replace_single (c : ascii) (text : string) :
  str_replace (String c "") (String "\" (String c "")) text =
  escape_with [c] text.
Proof.
  unfold str_replace.
  induction text as [| a rest IH]; [reflexivity |].
  cbn [replace_from startswith escape_with existsb String.length Nat.sub].
  rewrite IH, orb_false_r, (Ascii.eqb_sym c a).
  destruct (Ascii.eqb_spec a c) as [-> | _]; cbn.
  - now destruct rest.
  - reflexivity.
Qed.

Lemma escape_with_nil (text : string) : escape_with [] text = text.
Proof. induction text as [| a rest IH]; cbn; [| rewrite IH]; reflexivity. Qed.

(** Escaping one more character after a pass is a pass for the larger
    set, as long as the character is new and is not the backslash. *)
Lemma escape_with_snoc (cs : list ascii) (c : ascii) (text : string) :
  c <> "\"%char -> existsb (Ascii.eqb c) cs = false ->
  escape_with [c] (escape_with cs text) = escape_with (cs ++ [c]) text.
Proof.
  intros Hc Hnew.
  induction text as [| a rest IH]; [reflexivity |].
  cbn [escape_with]. rewrite existsb_app. cbn [existsb]. rewrite orb_false_r.
  destruct (existsb (Ascii.eqb a) cs) eqn:Ha; cbn [escape_with existsb orb].
  - assert (Ascii.eqb a c = false) as Hac.
    { destruct (Ascii.eqb_spec a c) as [-> |]; congruence. }
    assert (Ascii.eqb "\" c = false) as Hbc.
    { destruct (Ascii.eqb_spec "\" c) as [<- |]; congruence. }
    rewrite Hac, Hbc, IH. reflexivity.
  - destruct (Ascii.eqb a c); cbn; now rewrite IH.
Qed.

Lemma replace_after_escape (cs : list ascii) (c : ascii) (text : string) :
  c <> "\"%char -> existsb (Ascii.eqb c) cs = false ->
  str_replace (String c "") (String "\" (String c "")) (escape_with cs text) =
  escape_with (cs ++ [c]) text.
Proof. intros. rewrite replace_single. now apply escape_with_snoc. Qed.

Lemma escape_with_reserved (cs : list ascii) (text : string) :
  (forall a, existsb (Ascii.eqb a) cs = reserved a) ->
  escape_with cs text = escape_pass text.
Proof.
  intro H. induction text as [| a rest IH]; [reflexivity |].
  cbn. now rewrite H, IH.
Qed.

(** The eighteen replacements of [escape_markdown_v2], one after the
    other, amount to the single pass of the specification. *)
Lemma escape_markdown_v2_pass (text : string) :
  escape_markdown_v2 text = escape_pass text.
Proof.
  unfold escape_markdown_v2, escape_chars. cbn [fold_left append].
  rewrite <- (escape_with_nil text) at 1.
  do 18 (rewrite replace_after_escape by (discriminate || reflexivity)).
  apply escape_with_reserved.
  intros [[|] [|] [|] [|] [|] [|] [|] [|]]; reflexivity.
Qed.

Lemma reserved_backslash : reserved "\" = false.
Proof. reflexivity. Qed.

Lemma length_escape_pass (text : string) :
  String.length (escape_pass text) =
  (String.length text + count_reserved text)%nat.
Proof.
  induction text as [| a rest IH]; [reflexivity |].
  cbn [escape_pass count_reserved].
  destruct (reserved a); cbn [String.length]; rewrite IH; lia.
Qed.

Lemma count_reserved_escape_pass (text : string) :
  count_reserved (escape_pass text) = count_reserved text.
Proof.
  induction text as [| a rest IH]; [reflexivity |].
  cbn [escape_pass count_reserved].
  destruct (reserved a) eqn:Ha; cbn [count_reserved];
    rewrite ?reserved_backslash, ?Ha, IH; reflexivity.
Qed.

(** Escaping an escaped text lengthens it by one backslash for each
    reserved character. *)
Lemma escape_twice_longer (text : string) :
  String.length (escape_markdown_v2 (escape_markdown_v2 text)) =
  (String.length (escape_markdown_v2 text) + count_reserved text)%nat.
Proof.
  rewrite !escape_markdown_v2_pass, length_escape_pass.
  now rewrite count_reserved_escape_pass.
Qed.

(** The first character of an escaped text is never reserved. *)
Lemma escape_pass_head (text : string) (a : ascii) (rest : string) :
  escape_pass text = String a rest -> reserved a = false.
Proof.
  destruct text as [| c tail]; [discriminate |].
  cbn [escape_pass].
  destruct (reserved c) eqn:Hc; intro H; inversion H; subst;
    [reflexivity | exact Hc].
Qed.

Lemma unescape_cons (a c : ascii) (rest : string) :
  unescape (String a (String c rest)) =
  if Ascii.eqb a "\" && reserved c then String c (unescape rest)
  else String a (unescape (String c rest)).
Proof. reflexivity. Qed.

(** Removing the backslashes that escaping put in gives the text back:
    escaping changes no character of the text. *)
Lemma unescape_escape_pass (text : string) :
  unescape (escape_pass text) = text.
Proof.
  induction text as [| c tail IH]; [reflexivity |].
  cbn [escape_pass]. destruct (reserved c) eqn:Hc.
  - rewrite unescape_cons, Hc. cbn. now rewrite IH.
  - destruct (escape_pass tail) as [| d rest] eqn:Htail.
    + destruct tail as [| c' tail']; [reflexivity |].
      cbn [escape_pass] in Htail. destruct (reserved c'); discriminate.
    + rewrite unescape_cons, (escape_pass_head tail d rest Htail).
      rewrite andb_false_r. now rewrite IH.
Qed.

(** In the escaped form of a text without backslashes, every reserved
    character is preceded by exactly one backslash. *)
Lemma escaped_from_escape_pass (text : string) (before2 : bool) :
  occurs "\" text = false ->
  escaped_from before2 false (escape_pass text) = true.
Proof.
  revert before2.
  induction text as [| c tail IH]; intros before2 H; [reflexivity |].
  cbn [occurs] in H. apply orb_false_elim in H. destruct H as [Hc Htail].
  rewrite Ascii.eqb_sym in Hc.
  cbn [escape_pass]. destruct (reserved c) eqn:Hr.
  - cbn [escaped_from]. rewrite reserved_backslash, Hr, Hc. cbn.
    now apply IH.
  - cbn [escaped_from]. rewrite Hr, Hc. cbn. now apply IH.
Qed.

Lemma escaped_escape_markdown_v2 (text : string) :
  occurs "\" text = false -> escaped (escape_markdown_v2 text) = true.
Proof.
  intro H. rewrite escape_markdown_v2_pass.
  now apply escaped_from_escape_pass.
Qed.

(** ** The report before escaping holds no backslash *)

Lemma occurs_append (c : ascii) (s t : string) :
  occurs c (s ++ t) = occurs c s || occurs c t.
Proof.
  induction s as [| a rest IH]; [reflexivity |].
  cbn. now rewrite IH, orb_assoc.
Qed.

Lemma occurs_of_list (c : ascii) (l : list ascii) :
  occurs c (string_of_list_ascii l) = existsb (Ascii.eqb c) l.
Proof. induction l as [| a rest IH]; cbn; [| rewrite IH]; reflexivity. Qed.

Lemma occurs_to_list (c : ascii) (s : string) :
  existsb (Ascii.eqb c) (list_ascii_of_string s) = occurs c s.
Proof. induction s as [| a rest IH]; cbn; [| rewrite IH]; reflexivity. Qed.

Lemma existsb_reverse {A : Type} (f : A -> bool) (l : list A) :
  existsb f (rev l) = existsb f l.
Proof.
  induction l as [| a rest IH]; [reflexivity |].
  cbn. rewrite existsb_app, IH. cbn. rewrite orb_false_r. apply orb_comm.
Qed.

Lemma existsb_group3_rev (c : ascii) (l : list ascii) (k : nat) :
  c <> ","%char ->
  existsb (Ascii.eqb c) (group3_rev l k) = existsb (Ascii.eqb c) l.
Proof.
  intro Hc.
  assert (Ascii.eqb c "," = false) as Hcomma
    by (destruct (Ascii.eqb_spec c ","); congruence).
  revert k. induction l as [| a rest IH]; intro k; [reflexivity |].
  cbn [group3_rev].
  destruct k as [| [| [| k]]]; destruct rest as [| b rest'];
    cbn [existsb]; rewrite ?Hcomma, ?IH; reflexivity.
Qed.

Lemma occurs_group3 (c : ascii) (s : string) :
  c <> ","%char -> occurs c (group3 s) = occurs c s.
Proof.
  intro Hc. unfold group3.
  rewrite occurs_of_list, existsb_reverse, existsb_group3_rev by assumption.
  now rewrite existsb_reverse, occurs_to_list.
Qed.

Lemma occurs_uint (u : Decimal.uint) :
  occurs "\" (NilEmpty.string_of_uint u) = false.
Proof. induction u; cbn; assumption || reflexivity. Qed.

Lemma occurs_digits (n : Z) : occurs "\" (digits n) = false.
Proof.
  unfold digits, NilZero.string_of_uint.
  destruct (N.to_uint (Z.to_N n)) eqn:E; try reflexivity;
    rewrite <- E; apply occurs_uint.
Qed.

Lemma occurs_zeros (n : nat) : occurs "\" (zeros n) = false.
Proof. induction n; cbn; assumption || reflexivity. Qed.

Lemma occurs_fixed_digits (p : nat) (comma : bool) (n : Z) :
  occurs "\" (fixed_digits p comma n) = false.
Proof.
  unfold fixed_digits, zfill.
  rewrite occurs_append.
  assert (occurs "\" (if comma then group3 (digits (n / 10 ^ Z.of_nat p))
                      else digits (n / 10 ^ Z.of_nat p)) = false) as ->.
  { destruct comma; [rewrite occurs_group3 by discriminate |];
      apply occurs_digits. }
  destruct p; [reflexivity |].
  rewrite !occurs_append, occurs_zeros, occurs_digits. reflexivity.
Qed.

Lemma occurs_format_f (p : nat) (comma : bool) (x : pyfloat) :
  occurs "\" (format_f p comma x) = false.
Proof.
  destruct x as [s | s | | s m e]; cbn [format_f].
  - rewrite occurs_append, occurs_fixed_digits. now destruct s.
  - now destruct s.
  - reflexivity.
  - rewrite occurs_append, occurs_fixed_digits. now destruct s.
Qed.

Lemma occurs_message (source : string) (nexa_price : pyfloat) (q : quantities) :
  occurs "\" source = false ->
  occurs "\" (message source nexa_price q) = false.
Proof.
  intro Hsource. unfold message, market_cap_text.
  repeat (rewrite occurs_append); rewrite !occurs_format_f, Hsource.
  reflexivity.
Qed.

(** ** The explorer tier *)

(** Unfolds the monad down to pairs of a result and a journal. *)
Ltac run :=
  unfold result, effects, try_except_ValueError, try_except, bind,
    requests_get, raise_for_status, log, emit, ret, raise, lift in *.

Section Explorer.

Context {B : Builtins}.

(** What the explorer tier does with a response, by the outcome of
    [int(r.json())]. *)
Lemma explorer_try_cases (w : world) (r : response) :
  explorer_coinsupply w = Some r -> status_ok r = true ->
  match result (explorer_json_number r) [] with
  | Ok n =>
      result (explorer_try w) [] = Ok n /\
      ~ In text_parse_event (effects (explorer_try w) [])
  | Raise ValueError =>
      result (explorer_try w) [] = result (explorer_text_number r) [] /\
      In text_parse_event (effects (explorer_try w) [])
  | Raise e =>
      result (explorer_try w) [] = Raise e /\
      ~ In text_parse_event (effects (explorer_try w) [])
  end.
Proof.
  intros Hw Hok.
  unfold explorer_try, explorer_text_number, explorer_json_number,
    text_parse_event.
  run. rewrite Hw. cbn. rewrite Hok. cbn.
  destruct (json r) as [data | e]; cbn.
  - destruct (py_int data) as [n | e]; cbn.
    + split; [reflexivity |]. intros [H | [H | []]]; discriminate.
    + destruct e; cbn;
        try (split; [reflexivity |]; intros [H | [H | []]]; discriminate).
      split; [reflexivity |]. right. right. now left.
  - destruct e; cbn;
      try (split; [reflexivity |]; intros [H | [H | []]]; discriminate).
    split; [reflexivity |]. right. right. now left.
Qed.

End Explorer.

(** C5 (amended): for every body the explorer answers, [get_circ_supply]
    first takes [int(r.json())] and returns it when there is one.  When
    that attempt raises a [ValueError] (the body is not JSON, or decodes
    to a string or a float that [int] rejects with a [ValueError]), the
    body is parsed as plain text, [int(r.text.strip())], and the next
    tiers are used only if this fails too.  When the attempt raises any
    other exception, the body is not parsed as text and the next tiers
    are used at once. *)
Theorem explorer_tier_order (B : Builtins) (w : world) (r : response)
    (j : journal) :
  explorer_coinsupply w = Some r -> status_ok r = true ->
  match result (explorer_json_number r) [] with
  | Ok n =>
      result (get_circ_supply w) j = Ok n /\
      ~ In text_parse_event (effects (get_circ_supply w) [])
  | Raise ValueError =>
      In text_parse_event (effects (get_circ_supply w) []) /\
      result (get_circ_supply w) j =
        match int_of_str (str_strip (text r)) with
        | Some n => Ok n
        | None => result (supply_fallback w) []
        end
  | Raise _ =>
      ~ In text_parse_event (effects (get_circ_supply w) []) /\
      result (get_circ_supply w) j = result (supply_fallback w) []
  end.
Proof.
  intros Hw Hok.
  pose proof (explorer_try_cases w r Hw Hok) as Hcases.
  pose proof (quiet_supply_fallback w [] (fun H => H)) as Hquiet.
  rewrite get_circ_supply_result, get_circ_supply_effects.
  assert (forall e, ~ In text_parse_event (effects (explorer_try w) []) ->
            ~ In text_parse_event
                (effects (explorer_try w) [] ++
                 EvLog ERROR "Explorer supply error: %s" [ArgExn e]
                 :: effects (supply_fallback w) [])%list) as Hrest.
  { intros e Hno Hin. apply in_app_or in Hin.
    destruct Hin as [Hin | [Heq | Hin]];
      [now apply Hno | discriminate | now apply Hquiet]. }
  destruct (result (explorer_json_number r) []) as [n | e].
  - destruct Hcases as [-> Hno]. split; [reflexivity |].
    now rewrite app_nil_r.
  - destruct e; try (destruct Hcases as [-> Hno]; split;
                     [now apply Hrest | reflexivity]).
    destruct Hcases as [-> Hin]. split.
    + apply in_or_app. now left.
    + unfold explorer_text_number, result, lift. cbn.
      destruct (int_of_str (str_strip (text r))); reflexivity.
Qed.

Lemma explorer_tier_order_witness :
  explorer_coinsupply world_plain = Some explorer_plain /\
  status_ok explorer_plain = true /\
  In text_parse_event (effects (@get_circ_supply decimal_builtins world_plain) []) /\
  result (@get_circ_supply decimal_builtins world_plain) [] = Ok 8000000000000.
Proof.
  split; [reflexivity |]. split; [reflexivity |].
  exact (explorer_tier_order decimal_builtins world_plain explorer_plain []
           eq_refl eq_refl).
Defined.

(** The body [null] decodes, [int] rejects the value with a [TypeError],
    and the body is not parsed as text: the next event after the failure
    is the error that the outer handler logs. *)
Lemma explorer_null_skips_text_parse :
  ~ @text_parse_follows_failure decimal_builtins world_null explorer_null.
Proof.
  unfold text_parse_follows_failure. intro H.
  specialize (H eq_refl). vm_compute in H.
  repeat (destruct H as [H | H]; [discriminate |]). exact H.
Qed.

(** Whatever [int] and [strip] do with text, the body [null] leads to the
    next tiers: the conversions of text are not consulted. *)
Lemma explorer_null_any_builtins (B : Builtins) :
  result (explorer_try world_null) [] = Raise TypeError /\
  effects (explorer_try world_null) [] =
    [EvGet EXPLORER_URL [];
     EvLog INFO "Raw coinsupply response: %r" [ArgStr "null"]].
Proof. split; reflexivity. Qed.

Example explorer_null_journal :
  @get_circ_supply decimal_builtins world_null [] =
    (Ok MANUAL_CIRC_SUPPLY,
     [EvGet EXPLORER_URL [];
      EvLog INFO "Raw coinsupply response: %r" [ArgStr "null"];
      EvLog ERROR "Explorer supply error: %s" [ArgExn TypeError];
      EvGet COINGECKO_URL COINGECKO_PARAMS;
      EvLog WARNING "CoinGecko supply error: %s" [ArgExn RequestException];
      EvLog WARNING "Falling back to manual supply: %d"
        [ArgInt MANUAL_CIRC_SUPPLY]]).
Proof. reflexivity. Qed.

(** ** The report *)

(** The label that [fetch_price] returns is one of the two source names,
    and neither holds a backslash. *)
Lemma fetch_price_label (B : Builtins) (w : world) (j : journal)
    (o : option pyfloat) (source : string) :
  result (fetch_price w) j = Ok (o, source) -> occurs "\" source = false.
Proof.
  rewrite fetch_price_result.
  destruct (result (get_mexc_price w) []) as [[p |] | e];
    [intros [= _ <-]; reflexivity | | discriminate].
  destruct (result (get_cg_price w) []) as [o' | e];
    [intros [= _ <-]; reflexivity | discriminate].
Qed.

(** Every string that [get_nexa_price] returns is either the error
    message or the escaped form of a report without backslashes, in which
    every reserved character is preceded by exactly one backslash and
    from which the report is recovered by removing those backslashes. *)
Lemma report_escaped (B : Builtins) (w : world) (j : journal) (s : string) :
  result (get_nexa_price w) j = Ok s ->
  s = ERROR_MESSAGE \/
  exists source nexa_price q,
    s = escape_markdown_v2 (message source nexa_price q) /\
    occurs "\" (message source nexa_price q) = false /\
    escaped s = true /\
    unescape s = message source nexa_price q.
Proof.
  rewrite get_nexa_price_result.
  destruct (result (fetch_price w) []) as [[[p |] source] | e] eqn:Hfetch;
    [| intros [= <-]; now left | discriminate].
  apply fetch_price_label in Hfetch.
  destruct (result (get_circ_supply w) []) as [n | e]; [| discriminate].
  cbn [res_bind]. destruct (derive p n) as [q | e]; [| discriminate].
  cbn [res_bind]. intros [= <-]. right. exists source, p, q.
  pose proof (occurs_message source p q Hfetch) as Hplain.
  repeat split.
  - exact Hplain.
  - now apply escaped_escape_markdown_v2.
  - rewrite escape_markdown_v2_pass. apply unescape_escape_pass.
Qed.

(** C3: at the failing input, where neither price service answers,
    [get_nexa_price] returns the error message as it is written in the
    source: escaping has not been applied to it, and its final ["."], a
    reserved character, is not preceded by a backslash. *)
Theorem error_message_not_escaped :
  result (@get_nexa_price decimal_builtins world_down) [] = Ok ERROR_MESSAGE /\
  escaped ERROR_MESSAGE = false /\
  escape_markdown_v2 ERROR_MESSAGE =
    SIREN ++ " Error: Unable to fetch price from MEXC or CoinGecko\." /\
  escape_markdown_v2 ERROR_MESSAGE <> ERROR_MESSAGE.
Proof.
  split; [reflexivity |]. split; [reflexivity |].
  split; [reflexivity |]. discriminate.
Qed.

(** C6 (amended): with a price of 0.00012345 and a supply of
    8,000,000,000,000 the market cap, the product of the two, is
    987,600,000.00 to two decimals, that is 987.60 millions;
    the price per million is 123.45, the price per billion 123,450, the
    supply 8.000 trillions, and the report that [get_nexa_price] escapes
    and returns shows these values with 8, 2, 0, 2 and 3 decimals. *)
Theorem sample_report :
  exists q,
    derive sample_price 8000000000000 = Ok q /\
    float_mul_int sample_price 8000000000000 = Ok (market_cap q) /\
    format_f 2 true (market_cap q) = "987,600,000.00" /\
    format_f 8 false sample_price = "0.00012345" /\
    format_f 2 true (price_per_million q) = "123.45" /\
    format_f 0 true (price_per_billion q) = "123,450" /\
    format_f 2 true (market_cap_millions q) = "987.60" /\
    format_f 3 false (circ_supply_trillions q) = "8.000" /\
    message "MEXC" sample_price q =
      "NEXA/USDT Price (MEXC)" ++ NL ++ NL ++
      "0.00012345$ per NEXA" ++ NL ++
      "123.45$ per 1M NEXA" ++ NL ++
      "123,450$ per 1B NEXA" ++ NL ++ NL ++
      "Market Cap: $987.60M" ++ NL ++
      "Circ Supply: 8.000T NEXA" /\
    result (@get_nexa_price decimal_builtins world_up) [] =
      Ok (escape_markdown_v2 (message "MEXC" sample_price q)).
Proof.
  eexists. split; [vm_compute; reflexivity |].
  repeat split; vm_compute; reflexivity.
Qed.

(** The market cap of the sample is not 987,600.00: it is a thousand
    times that. *)
Lemma sample_market_cap_is_not_987600 :
  exists cap,
    float_mul_int sample_price 8000000000000 = Ok cap /\
    float_trunc cap = Ok 987599999 /\
    format_f 2 true cap <> "987,600.00".
Proof.
  eexists. split; [vm_compute; reflexivity |].
  split; [reflexivity |]. vm_compute. discriminate.
Qed.

Lemma count_reserved_occurs (c : ascii) (text : string) :
  reserved c = true -> occurs c text = true -> count_reserved text <> 0%nat.
Proof.
  intros Hc. induction text as [| a rest IH]; [discriminate |].
  cbn [occurs count_reserved]. intro H. apply orb_true_elim in H.
  destruct H as [H | H].
  - apply Ascii.eqb_eq in H. subst a. rewrite Hc. discriminate.
  - specialize (IH H). destruct (reserved a); lia.
Qed.

(** C7: escaping is not idempotent: for a text that holds a reserved
    character, escaping twice gives a text other than escaping once,
    longer by one backslash for each reserved character.  In the program
    the function is applied once, to the complete message: the report that
    [get_nexa_price] returns is [escape_markdown_v2] of the whole message,
    and the message it is applied to holds no backslash, so that none of
    its fragments was escaped before. *)
Theorem escape_applied_once (B : Builtins) (c : ascii) (text : string)
    (w : world) (j : journal) :
  reserved c = true -> occurs c text = true ->
  escape_markdown_v2 (escape_markdown_v2 text) <> escape_markdown_v2 text /\
  String.length (escape_markdown_v2 (escape_markdown_v2 text)) =
    (String.length (escape_markdown_v2 text) + count_reserved text)%nat /\
  match result (fetch_price w) [] with
  | Ok (Some nexa_price, source) =>
      result (get_nexa_price w) j =
        res_bind (result (get_circ_supply w) []) (fun circ_supply =>
        res_bind (derive nexa_price circ_supply) (fun q =>
        Ok (escape_markdown_v2 (message source nexa_price q)))) /\
      forall q, occurs "\" (message source nexa_price q) = false
  | Ok (None, _) => result (get_nexa_price w) j = Ok ERROR_MESSAGE
  | Raise e => result (get_nexa_price w) j = Raise e
  end.
Proof.
  intros Hc Hocc.
  pose proof (count_reserved_occurs c text Hc Hocc) as Hcount.
  pose proof (escape_twice_longer text) as Hlen.
  split; [| split; [exact Hlen |]].
  - intro Heq. rewrite Heq in Hlen. lia.
  - rewrite get_nexa_price_result.
    destruct (result (fetch_price w) []) as [[[p |] source] | e] eqn:Hfetch;
      try reflexivity.
    split; [reflexivity |]. intro q.
    apply occurs_message. now apply (fetch_price_label B w [] (Some p)).
Qed.

Lemma escape_applied_once_witness :
  reserved "." = true /\ occurs "." "1.5" = true /\
  escape_markdown_v2 (escape_markdown_v2 "1.5") <> escape_markdown_v2 "1.5".
Proof.
  split; [reflexivity |]. split; [reflexivity |].
  apply (escape_applied_once decimal_builtins "." "1.5" world_up []);
    reflexivity.
Defined.

Example escape_twice_sample :
  escape_markdown_v2 "1.5" = "1\.5" /\
  escape_markdown_v2 (escape_markdown_v2 "1.5") = "1\\.5".
Proof. split; reflexivity. Qed.

(** ** The markets endpoint of CoinGecko *)

(** The first element is read only from a list that has one. *)
Lemma markets_guard_in_bounds (field : string) (data : pyval) :
  markets_guard field data <> Raise IndexError /\
  (markets_guard field data = Ok true ->
   exists first rest, data = PList (first :: rest) /\ getitem_0 data = Ok first).
Proof.
  unfold markets_guard.
  destruct (truthy data) eqn:Htruthy; [| split; discriminate].
  destruct data as [| b | z | f | s | l | d]; cbn [isinstance_list];
    try (split; discriminate).
  destruct l as [| first rest]; [discriminate |].
  cbn [getitem_0 res_bind]. split.
  - destruct first; cbn; discriminate.
  - intros _. now exists first, rest.
Qed.

Section Markets.

Context {B : Builtins}.

(** Closes the cases of a fetcher run on a body it cannot use. *)
Ltac unusable_cases Hw Hjson Hbad r :=
  run; rewrite Hw; cbn;
  destruct (status_ok r); cbn; [| reflexivity];
  rewrite Hjson; unfold markets_guard;
  destruct Hbad as [-> | [Hlist | (first & rest & -> & Hfield)]];
  [ reflexivity
  | rewrite Hlist; now destruct (truthy _)
  | destruct first as [| b | z | f | s | l | d]; cbn in Hfield |- *;
    try reflexivity;
    [ now destruct (contains _ s)
    | now destruct (existsb _ l)
    | now destruct (lookup _ d) ] ].

Lemma get_cg_supply_unusable (w : world) (r : response) (data : pyval) :
  coingecko_supply w = Some r -> json r = Ok data ->
  unusable_markets "circulating_supply" data ->
  result (get_cg_supply w) [] = Ok None.
Proof.
  intros Hw Hjson Hbad.
  unfold get_cg_supply, get_cg_supply_try.
  unusable_cases Hw Hjson Hbad r.
Qed.

Lemma get_cg_price_unusable (w : world) (r : response) (data : pyval) :
  coingecko_price w = Some r -> json r = Ok data ->
  unusable_markets "current_price" data ->
  result (get_cg_price w) [] = Ok None.
Proof.
  intros Hw Hjson Hbad.
  unfold get_cg_price, get_cg_price_try.
  unusable_cases Hw Hjson Hbad r.
Qed.

End Markets.

(** C9: when the body that CoinGecko answers decodes to an empty list, to
    a value that is not a list, or to a list whose first element is not a
    dict holding the expected field, [get_cg_supply] and [get_cg_price] return
    [None] and do not raise, so that the next tier is used; the first
    element is read only behind the test that the value is a non-empty
    list, so reading it never raises [IndexError]. *)
Theorem markets_guarded (B : Builtins) (w : world) (rs rp : response)
    (ds dp : pyval) (j : journal) :
  coingecko_supply w = Some rs -> json rs = Ok ds ->
  unusable_markets "circulating_supply" ds ->
  coingecko_price w = Some rp -> json rp = Ok dp ->
  unusable_markets "current_price" dp ->
  result (get_cg_supply w) j = Ok None /\
  result (get_cg_price w) j = Ok None /\
  result (supply_fallback w) j = Ok MANUAL_CIRC_SUPPLY /\
  forall field data,
    markets_guard field data <> Raise IndexError /\
    (markets_guard field data = Ok true ->
     exists first rest,
       data = PList (first :: rest) /\ getitem_0 data = Ok first).
Proof.
  intros Hs Hjs Hbs Hp Hjp Hbp.
  pose proof (get_cg_supply_unusable w rs ds Hs Hjs Hbs) as Hsupply.
  pose proof (get_cg_price_unusable w rp dp Hp Hjp Hbp) as Hprice.
  rewrite (result_appending _ j (appending_get_cg_supply w)).
  rewrite (result_appending _ j (appending_get_cg_price w)).
  rewrite supply_fallback_result, Hsupply.
  repeat split; try assumption; apply markets_guard_in_bounds.
Qed.

Lemma markets_guarded_witness :
  unusable_markets "circulating_supply" (PList []) /\
  unusable_markets "current_price" (PList []) /\
  result (@get_cg_supply decimal_builtins world_empty_markets) [] = Ok None /\
  result (@get_cg_price decimal_builtins world_empty_markets) [] = Ok None.
Proof.
  assert (forall field, unusable_markets field (PList [])) as Hbad
    by (intro field; now left).
  split; [apply Hbad |]. split; [apply Hbad |].
  destruct (markets_guarded decimal_builtins world_empty_markets
              coingecko_empty coingecko_empty (PList []) (PList []) []
              eq_refl eq_refl (Hbad _) eq_refl eq_refl (Hbad _))
    as (Hsupply & Hprice & _).
  split; assumption.
Defined.

(** ** The values the fetchers return *)

(** [float_trunc] drops the fractional part. *)
Lemma float_trunc_truncates (s : bool) (m : positive) (e : Z) :
  truncation_of s m e (cond_Zopp s (Z.shiftl (Zpos m) e)).
Proof.
  unfold truncation_of.
  assert (0 <= Z.shiftl (Zpos m) e) as Hpos
    by (apply Z.shiftl_nonneg; lia).
  assert (Z.abs (cond_Zopp s (Z.shiftl (Zpos m) e)) = Z.shiftl (Zpos m) e)
    as Habs by (destruct s; cbn [cond_Zopp]; lia).
  split; [destruct s; cbn [cond_Zopp]; lia |].
  rewrite Habs. clear Habs Hpos.
  destruct (Z.le_gt_cases 0 e) as [He | He].
  - rewrite Z.shiftl_mul_pow2 by assumption.
    rewrite (Z.max_l 0 (- e)), (Z.max_r 0 e) by lia.
    change (2 ^ 0) with 1. lia.
  - rewrite Z.shiftl_div_pow2 by lia.
    rewrite (Z.max_r 0 (- e)), (Z.max_l 0 e) by lia.
    change (2 ^ 0) with 1.
    assert (0 < 2 ^ (- e)) as Hd by (apply Z.pow_pos_nonneg; lia).
    pose proof (Z.div_mod (Zpos m) (2 ^ (- e)) ltac:(lia)) as Hdm.
    pose proof (Z.mod_pos_bound (Zpos m) (2 ^ (- e)) Hd) as Hmod.
    nia.
Qed.

Section Values.

Context {B : Builtins}.

Lemma explorer_float (w : world) (r : response) (f : pyfloat) :
  explorer_coinsupply w = Some r -> status_ok r = true ->
  json r = Ok (PFloat f) ->
  result (explorer_try w) [] =
    match float_trunc f with
    | Ok z => Ok z
    | Raise ValueError =>
        match int_of_str (str_strip (text r)) with
        | Some z => Ok z
        | None => Raise ValueError
        end
    | Raise e => Raise e
    end.
Proof.
  intros Hw Hok Hjson.
  unfold explorer_try, explorer_json_number, explorer_text_number.
  run. rewrite Hw. cbn. rewrite Hok. cbn. rewrite Hjson. cbn.
  destruct (float_trunc f) as [z | e]; [reflexivity |].
  destruct e; reflexivity.
Qed.

(** [get_cg_supply] returns [int(data[0]["circulating_supply"])]. *)
Lemma get_cg_supply_value (w : world) (r : response)
    (d : list (string * pyval)) (rest : list pyval) (v : pyval) :
  coingecko_supply w = Some r -> status_ok r = true ->
  json r = Ok (PList (PDict d :: rest)) ->
  lookup "circulating_supply" d = Some v ->
  result (get_cg_supply w) [] =
    match py_int v with
    | Ok z => Ok (Some z)
    | Raise _ => Ok None
    end.
Proof.
  intros Hw Hok Hjson Hfield.
  unfold get_cg_supply, get_cg_supply_try, markets_guard. run.
  rewrite Hw. cbn. rewrite Hok. cbn. rewrite Hjson. cbn.
  rewrite Hfield. cbn.
  destruct (py_int v); reflexivity.
Qed.

(** [get_cg_price] returns [float(data[0]["current_price"])]. *)
Lemma get_cg_price_value (w : world) (r : response)
    (d : list (string * pyval)) (rest : list pyval) (v : pyval) :
  coingecko_price w = Some r -> status_ok r = true ->
  json r = Ok (PList (PDict d :: rest)) ->
  lookup "current_price" d = Some v ->
  result (get_cg_price w) [] =
    match py_float v with
    | Ok p => Ok (Some p)
    | Raise _ => Ok None
    end.
Proof.
  intros Hw Hok Hjson Hfield.
  unfold get_cg_price, get_cg_price_try, markets_guard. run.
  rewrite Hw. cbn. rewrite Hok. cbn. rewrite Hjson. cbn.
  rewrite Hfield. cbn.
  destruct (py_float v); reflexivity.
Qed.

(** [get_mexc_price] returns [float(data["price"])]. *)
Lemma get_mexc_price_value (w : world) (r : response)
    (d : list (string * pyval)) (v : pyval) :
  mexc_ticker w = Some r -> status_ok r = true ->
  json r = Ok (PDict d) ->
  lookup "price" d = Some v ->
  result (get_mexc_price w) [] =
    match py_float v with
    | Ok p => Ok (Some p)
    | Raise _ => Ok None
    end.
Proof.
  intros Hw Hok Hjson Hfield.
  unfold get_mexc_price, get_mexc_price_try, ticker_guard. run.
  rewrite Hw. cbn. rewrite Hok. cbn. rewrite Hjson. cbn.
  rewrite Hfield. cbn.
  destruct (py_float v); reflexivity.
Qed.

End Values.

(** C10: a supply that an upstream service answers as a float with a
    fractional part is returned with that part dropped, rounding toward
    zero, by [int]: so it is when the explorer answers a JSON float, and
    so it is when the explorer tier fails and CoinGecko answers a float
    as [circulating_supply]. *)
Theorem supply_truncated (B : Builtins) (s : bool) (m : positive) (e : Z) :
  exists z,
    float_trunc (S754_finite s m e) = Ok z /\
    truncation_of s m e z /\
    (forall w r j,
       explorer_coinsupply w = Some r -> status_ok r = true ->
       json r = Ok (PFloat (S754_finite s m e)) ->
       result (get_circ_supply w) j = Ok z) /\
    (forall w r d rest j,
       is_ok (result (explorer_try w) []) = false ->
       coingecko_supply w = Some r -> status_ok r = true ->
       json r = Ok (PList (PDict d :: rest)) ->
       lookup "circulating_supply" d = Some (PFloat (S754_finite s m e)) ->
       result (get_cg_supply w) j = Ok (Some z) /\
       result (get_circ_supply w) j = Ok z).
Proof.
  exists (cond_Zopp s (Z.shiftl (Zpos m) e)).
  split; [reflexivity |].
  split; [apply float_trunc_truncates |].
  split.
  - intros w r j Hw Hok Hjson.
    rewrite get_circ_supply_result, (explorer_float w r _ Hw Hok Hjson).
    reflexivity.
  - intros w r d rest j Hfail Hw Hok Hjson Hfield.
    pose proof (get_cg_supply_value w r d rest _ Hw Hok Hjson Hfield) as Hcg.
    cbn in Hcg.
    rewrite (result_appending _ j (appending_get_cg_supply w)), Hcg.
    split; [reflexivity |].
    rewrite get_circ_supply_result, supply_fallback_result, Hcg.
    destruct (result (explorer_try w) []); [discriminate | reflexivity].
Qed.

Lemma supply_truncated_witness :
  truncation_of false 8191999999999488 (-10) 7999999999999 /\
  result (@get_circ_supply decimal_builtins world_fractional_explorer) [] =
    Ok 7999999999999 /\
  result (@get_circ_supply decimal_builtins world_fractional) [] =
    Ok 7999999999999.
Proof.
  destruct (supply_truncated decimal_builtins false 8191999999999488 (-10))
    as (z & Hz & Htrunc & Hexplorer & Hcoingecko).
  injection Hz as <-.
  split; [exact Htrunc |]. split.
  - apply (Hexplorer world_fractional_explorer explorer_fractional []);
      reflexivity.
  - apply (Hcoingecko world_fractional coingecko_fractional
             [("circulating_supply", PFloat fractional_supply)] [] []);
      reflexivity.
Defined.

(** ** Runs on the sample responses *)

Example supply_from_explorer :
  result (@get_circ_supply decimal_builtins world_up) [] = Ok 8000000000000.
Proof. reflexivity. Qed.

Example supply_from_coingecko :
  result (@get_circ_supply decimal_builtins world_coingecko) [] =
    Ok 8000000000000 /\
  result (@explorer_try decimal_builtins world_coingecko) [] =
    Raise RequestException.
Proof. split; reflexivity. Qed.

Example supply_from_constant :
  result (@get_circ_supply decimal_builtins world_down) [] =
    Ok MANUAL_CIRC_SUPPLY.
Proof. reflexivity. Qed.

Example price_from_mexc :
  result (@fetch_price decimal_builtins world_up) [] =
    Ok (Some sample_price, "MEXC").
Proof. reflexivity. Qed.

Example price_from_coingecko :
  result (@fetch_price decimal_builtins world_coingecko) [] =
    Ok (Some sample_price, "CoinGecko").
Proof. reflexivity. Qed.

Example report_from_coingecko :
  @get_nexa_price decimal_builtins world_coingecko [] =
    (Ok ("NEXA/USDT Price \(CoinGecko\)" ++ NL ++ NL ++
         "0\.00012345$ per NEXA" ++ NL ++
         "123\.45$ per 1M NEXA" ++ NL ++
         "123,450$ per 1B NEXA" ++ NL ++ NL ++
         "Market Cap: $987\.60M" ++ NL ++
         "Circ Supply: 8\.000T NEXA"),
     [EvGet MEXC_URL [];
      EvLog ERROR "MEXC API Error: {e}" [ArgExn RequestException];
      EvLog INFO "Falling back to CoinGecko for price" [];
      EvGet COINGECKO_URL COINGECKO_PARAMS;
      EvGet EXPLORER_URL [];
      EvLog ERROR "Explorer supply error: %s" [ArgExn RequestException];
      EvGet COINGECKO_URL COINGECKO_PARAMS;
      EvLog INFO "Using CoinGecko supply: %d" [ArgInt 8000000000000]]).
Proof. vm_compute. reflexivity. Qed.

Example explorer_plain_text :
  @get_circ_supply decimal_builtins world_plain [] =
    (Ok 8000000000000,
     [EvGet EXPLORER_URL [];
      EvLog INFO "Raw coinsupply response: %r" [ArgStr "+8000000000000"];
      EvLog DEBUG "Not JSON-number, falling back to text parse" []]).
Proof. reflexivity. Qed.

(** * Further properties of the code *)

(** ** [escape_markdown_v2] *)

Lemma escape_pass_append (a b : string) :
  escape_pass (a ++ b) = escape_pass a ++ escape_pass b.
Proof.
  induction a as [| c rest IH]; [reflexivity |].
  cbn [append escape_pass]. rewrite IH. now destruct (reserved c).
Qed.

Lemma escape_pass_unreserved (text : string) :
  count_reserved text = 0%nat -> escape_pass text = text.
Proof.
  induction text as [| c rest IH]; [reflexivity |].
  cbn [count_reserved escape_pass].
  destruct (reserved c); [discriminate |].
  intro H. now rewrite IH.
Qed.

Lemma reserved_not_backslash (c : ascii) :
  reserved c = true -> Ascii.eqb c "\" = false.
Proof.
  intro H. destruct (Ascii.eqb_spec c "\") as [-> |]; [| reflexivity].
  now rewrite reserved_backslash in H.
Qed.

Lemma escaped_from_clean (text : string) (before2 before1 : bool) :
  escaped_from before2 before1 (escape_pass text) = clean_from before1 text.
Proof.
  revert before2 before1.
  induction text as [| c rest IH]; intros before2 before1; [reflexivity |].
  cbn [escape_pass clean_from]. destruct (reserved c) eqn:Hc.
  - cbn [escaped_from].
    rewrite reserved_backslash, Hc, (reserved_not_backslash c Hc), IH.
    now destruct before1.
  - cbn [escaped_from]. rewrite Hc, IH. now destruct before1.
Qed.

(** X1: the eighteen successive replacements of [escape_markdown_v2] do
    not interfere: for every text, with or without backslashes, the
    result is the text read once from left to right with one backslash
    put before each reserved character, so it is longer than the text by
    the number of its reserved characters. *)
Theorem escape_single_pass (text : string) :
  escape_markdown_v2 text = escape_pass text /\
  String.length (escape_markdown_v2 text) =
    (String.length text + count_reserved text)%nat.
Proof.
  rewrite escape_markdown_v2_pass. split; [reflexivity |].
  apply length_escape_pass.
Qed.

(** X2: escaping commutes with concatenation: escaping two pieces and
    joining them gives the escaped form of the joined text. *)
Theorem escape_append (a b : string) :
  escape_markdown_v2 (a ++ b) = escape_markdown_v2 a ++ escape_markdown_v2 b.
Proof. rewrite !escape_markdown_v2_pass. apply escape_pass_append. Qed.

(** X3: escaping loses nothing: removing the backslash before each
    reserved character of an escaped text gives the text back, and two
    texts with the same escaped form are the same text. *)
Theorem escape_round_trip (text : string) :
  unescape (escape_markdown_v2 text) = text /\
  forall other,
    escape_markdown_v2 text = escape_markdown_v2 other -> text = other.
Proof.
  assert (forall t, unescape (escape_markdown_v2 t) = t) as Hback
    by (intro t; rewrite escape_markdown_v2_pass; apply unescape_escape_pass).
  split; [apply Hback |].
  intros other Heq. rewrite <- (Hback text), Heq. apply Hback.
Qed.

(** X4: escaping leaves a text as it is exactly when the text holds no
    reserved character. *)
Theorem escape_fixed_point (text : string) :
  escape_markdown_v2 text = text <-> count_reserved text = 0%nat.
Proof.
  rewrite escape_markdown_v2_pass. split.
  - intro Heq. pose proof (length_escape_pass text) as Hlen.
    rewrite Heq in Hlen. lia.
  - apply escape_pass_unreserved.
Qed.

(** X5: the backslash itself is not escaped, so the escaped form of a
    text has every reserved character preceded by exactly one backslash
    exactly when no reserved character of the text comes directly after a
    backslash. *)
Theorem escape_valid_iff_clean (text : string) :
  escaped (escape_markdown_v2 text) = clean text /\
  escape_markdown_v2 "\" = "\".
Proof.
  split; [| reflexivity].
  rewrite escape_markdown_v2_pass. apply escaped_from_clean.
Qed.

Example escape_after_backslash :
  clean "a\.b" = false /\
  escape_markdown_v2 "a\.b" = "a\\.b" /\
  escaped (escape_markdown_v2 "a\.b") = false.
Proof. repeat split. Qed.

(** ** The arithmetic of the report never overflows on supplies below 2^500 *)

Lemma digits2_size (p : positive) : digits2_pos p = Pos.size p.
Proof. induction p; cbn; now rewrite ?IHp. Qed.

Lemma Zdigits2_nonneg (x : Z) : 0 <= Zdigits2 x.
Proof. destruct x; cbn; lia. Qed.

(** A number below [2^n] has at most [n] binary digits. *)
Lemma Zdigits2_le (x n : Z) : 0 <= x < 2 ^ n -> 0 <= n -> Zdigits2 x <= n.
Proof.
  intros [Hx Hlt] Hn. destruct x as [| p | p]; cbn; [assumption | | lia].
  rewrite digits2_size.
  pose proof (Pos.size_le p) as Hsize.
  apply Pos2Z.pos_le_pos in Hsize. rewrite Pos2Z.inj_pow in Hsize.
  change (Zpos p~0) with (2 * Zpos p) in Hsize.
  assert (2 ^ Zpos (Pos.size p) < 2 ^ (n + 1)) as Hpow
    by (rewrite Z.pow_add_r by lia; change (2 ^ 1) with 2; lia).
  apply Z.pow_lt_mono_r_iff in Hpow; lia.
Qed.

(** A number is below two to the number of its binary digits. *)
Lemma Zdigits2_gt (x : Z) : 0 <= x -> x < 2 ^ Zdigits2 x.
Proof.
  intros Hx. destruct x as [| p | p]; cbn [Zdigits2]; [reflexivity | | lia].
  rewrite digits2_size.
  pose proof (Pos.size_gt p) as Hsize.
  apply Pos2Z.pos_lt_pos in Hsize. now rewrite Pos2Z.inj_pow in Hsize.
Qed.

Lemma iter_pos_keeps {A : Type} (f : A -> A) (I : A -> Prop) :
  (forall x, I x -> I (f x)) -> forall p x, I x -> I (iter_pos f p x).
Proof.
  intros Hf. induction p as [p IH | p IH |]; intros x Hx; cbn; auto.
Qed.

(** Shifting right keeps a mantissa non-negative and no longer. *)
Lemma shr_1_keeps (d : Z) (mrs : shr_record) :
  0 <= shr_m mrs /\ Zdigits2 (shr_m mrs) <= d ->
  0 <= shr_m (shr_1 mrs) /\ Zdigits2 (shr_m (shr_1 mrs)) <= d.
Proof.
  destruct mrs as [m r s]. cbn [shr_m]. intros [Hm Hd].
  destruct m as [| [p | p |] | p]; cbn in *; lia.
Qed.

Lemma shr_m_of_loc (m : Z) (l : location) : shr_m (shr_record_of_loc m l) = m.
Proof. destruct l as [| []]; reflexivity. Qed.

(** What [shr_fexp] leaves: a mantissa no longer than the one it was
    given, and the larger of the exponent and the one the format asks. *)
Lemma shr_fexp_keeps (d m e : Z) (l : location) :
  0 <= m -> Zdigits2 m <= d ->
  0 <= shr_m (fst (shr_fexp prec emax m e l)) /\
  Zdigits2 (shr_m (fst (shr_fexp prec emax m e l))) <= d /\
  snd (shr_fexp prec emax m e l) = Z.max e (fexp prec emax (Zdigits2 m + e)).
Proof.
  intros Hm Hd. unfold shr_fexp, shr.
  destruct (fexp prec emax (Zdigits2 m + e) - e) as [| n | n] eqn:Hn;
    cbn [fst snd]; rewrite ?shr_m_of_loc.
  - repeat split; try assumption. lia.
  - pose proof (iter_pos_keeps shr_1
                  (fun x => 0 <= shr_m x /\ Zdigits2 (shr_m x) <= d)
                  (shr_1_keeps d) n (shr_record_of_loc m l)) as Hiter.
    cbv beta in Hiter. rewrite shr_m_of_loc in Hiter.
    specialize (Hiter (conj Hm Hd)).
    destruct Hiter as [H0 H1]. repeat split; try assumption. lia.
  - repeat split; try assumption. lia.
Qed.

Lemma round_nearest_even_keeps (d m : Z) (l : location) :
  0 <= m -> Zdigits2 m <= d -> 0 <= d ->
  0 <= round_nearest_even m l /\ Zdigits2 (round_nearest_even m l) <= d + 1.
Proof.
  intros Hm Hd H0.
  assert (0 <= m + 1 /\ Zdigits2 (m + 1) <= d + 1) as Hsucc.
  { split; [lia |]. apply Zdigits2_le; [| lia].
    pose proof (Zdigits2_gt m Hm) as Hgt.
    assert (2 ^ Zdigits2 m <= 2 ^ d) as Hmono
      by (apply Z.pow_le_mono_r; [lia | assumption]).
    rewrite Z.pow_add_r by lia. change (2 ^ 1) with 2. lia. }
  unfold round_nearest_even.
  destruct l as [| []]; try destruct (Z.even m); try (split; [lia | lia]);
    exact Hsucc.
Qed.

(** Rounding a mantissa of at most 500 digits with a non-positive
    exponent never gives an infinity. *)
Lemma binary_round_aux_finite (s : bool) (m e : Z) (l : location) (s' : bool) :
  0 <= m -> Zdigits2 m <= 500 -> e <= 0 ->
  binary_round_aux prec emax s m e l <> S754_infinity s'.
Proof.
  intros Hm Hd He. unfold binary_round_aux.
  pose proof (shr_fexp_keeps 500 m e l Hm Hd) as (H1 & H2 & H3).
  destruct (shr_fexp prec emax m e l) as [mrs1 e1]. cbn [fst snd] in *.
  pose proof (round_nearest_even_keeps 500 (shr_m mrs1)
                (loc_of_shr_record mrs1) H1 H2 ltac:(lia)) as [H4 H5].
  pose proof (shr_fexp_keeps 501 _ e1 loc_Exact H4 H5) as (H6 & H7 & H8).
  destruct (shr_fexp prec emax
              (round_nearest_even (shr_m mrs1) (loc_of_shr_record mrs1))
              e1 loc_Exact) as [mrs2 e2].
  cbn [fst snd] in *.
  destruct (shr_m mrs2); try discriminate.
  destruct (Z.leb_spec e2 (emax - prec)) as [Hle | Hgt]; [discriminate |].
  exfalso. pose proof (Zdigits2_nonneg m) as Hn.
  unfold fexp, emin, prec, emax in *. lia.
Qed.

Lemma digits2_iter_xO (m d : positive) :
  Zpos (digits2_pos (Pos.iter xO m d)) = Zpos (digits2_pos m) + Zpos d.
Proof.
  induction d as [| d IH] using Pos.peano_ind.
  - cbn. lia.
  - rewrite Pos.iter_succ. cbn [digits2_pos]. lia.
Qed.

(** [float(z)] does not raise for an integer below [2^500] in magnitude. *)
Lemma float_of_int_total (z : Z) :
  Z.abs z < 2 ^ 500 -> exists f, float_of_int z = Ok f.
Proof.
  intro Hz. unfold float_of_int.
  assert (forall s', binary_normalize prec emax z 0 false <> S754_infinity s')
    as Hfinite.
  { intro s'. unfold binary_normalize.
    assert (forall sx m, Zpos m < 2 ^ 500 ->
              binary_round prec emax sx m 0 <> S754_infinity s') as Hround.
    { intros sx m Hm. unfold binary_round, shl_align.
      assert (Zpos (digits2_pos m) <= 500) as Hd
        by (apply (Zdigits2_le (Zpos m)); lia).
      destruct (fexp prec emax (Zpos (digits2_pos m) + 0) - 0)
        as [| d | d] eqn:Hshift;
        apply binary_round_aux_finite; try lia; try assumption.
      cbn [Zdigits2]. rewrite digits2_iter_xO.
      unfold fexp, emin, prec, emax in Hshift. lia. }
    destruct z as [| m | m]; [discriminate | |]; apply Hround; lia. }
  destruct (binary_normalize prec emax z 0 false) as [s | s | | s m e];
    try (eexists; reflexivity).
  now elim (Hfinite s).
Qed.

(** [a / 1_000_000_000_000] does not raise for an integer below [2^500]
    in magnitude. *)
Lemma int_truediv_trillion_total (a : Z) :
  Z.abs a < 2 ^ 500 -> exists f, int_truediv a 1000000000000 = Ok f.
Proof.
  intro Ha. unfold int_truediv.
  change (1000000000000 =? 0) with false. cbv iota.
  destruct (a =? 0); [eexists; reflexivity |].
  change (Z.abs 1000000000000) with 1000000000000.
  unfold SFdiv_core_binary.
  change (Zdigits2 1000000000000) with 40.
  pose proof (Zdigits2_nonneg (Z.abs a)) as Hd0.
  pose proof (Zdigits2_gt (Z.abs a) (Z.abs_nonneg a)) as Hgt.
  pose proof (Zdigits2_le (Z.abs a) 500
                (conj (Z.abs_nonneg a) Ha) ltac:(lia)) as Hd500.
  set (d1 := Zdigits2 (Z.abs a)) in *.
  set (e' := Z.min (fexp prec emax (d1 + 0 - (40 + 0))) (0 - 0)).
  assert (e' <= 0) as He' by exact (Z.le_min_r _ 0).
  set (m' := match 0 - 0 - e' with
             | 0 => Z.abs a
             | Z.pos _ => Z.shiftl (Z.abs a) (0 - 0 - e')
             | Z.neg _ => 0
             end).
  assert (0 <= m' < 2 ^ 500) as Hm'.
  { unfold m'. destruct (0 - 0 - e') as [| sh | sh] eqn:Hs.
    - lia.
    - rewrite Z.shiftl_mul_pow2 by lia.
      assert (Z.pos sh = 93 - d1) as Hsh
        by (unfold e', fexp, emin, prec, emax in Hs; lia).
      assert (0 < 93 - d1) as Hpos by lia.
      rewrite Hsh.
      assert (0 < 2 ^ (93 - d1)) by (apply Z.pow_pos_nonneg; lia).
      assert (2 ^ d1 * 2 ^ (93 - d1) = 2 ^ 93) as Hpow
        by (rewrite <- Z.pow_add_r by lia; f_equal; lia).
      assert (2 ^ 93 < 2 ^ 500) by reflexivity.
      split; [nia | nia].
    - split; [lia | reflexivity]. }
  pose proof (Z_div_mod m' 1000000000000 ltac:(lia)) as Hdiv.
  destruct (Z.div_eucl m' 1000000000000) as [q r].
  assert (0 <= q < 2 ^ 500) as Hq by nia.
  pose proof (Zdigits2_le q 500 Hq ltac:(lia)) as Hdq.
  pose proof (binary_round_aux_finite
                (xorb (a <? 0) (1000000000000 <? 0)) q e'
                (new_location 1000000000000 r)) as Hfinite.
  destruct (binary_round_aux prec emax
              (xorb (a <? 0) (1000000000000 <? 0)) q e'
              (new_location 1000000000000 r))
    as [s | s | | s m e]; try (eexists; reflexivity).
  now elim (Hfinite s).
Qed.

Lemma float_of_int_raises (z : Z) (e : exn) :
  float_of_int z = Raise e -> e = OverflowError.
Proof.
  unfold float_of_int.
  destruct (binary_normalize prec emax z 0 false); congruence.
Qed.

Lemma int_truediv_trillion_raises (a : Z) (e : exn) :
  int_truediv a 1000000000000 = Raise e -> e = OverflowError.
Proof.
  unfold int_truediv. change (1000000000000 =? 0) with false. cbv iota.
  destruct (a =? 0); [discriminate |].
  destruct (SFdiv_core_binary prec emax (Z.abs a) 0 (Z.abs 1000000000000) 0)
    as [[q e'] l].
  destruct (binary_round_aux prec emax
              (xorb (a <? 0) (1000000000000 <? 0)) q e' l); congruence.
Qed.

(** The multiplications and divisions by the constants of the program
    never raise. *)
Lemma derive_constants (x : pyfloat) :
  (exists y, float_div_int x 1000000 = Ok y) /\
  (exists y, float_mul_int x 1000000 = Ok y) /\
  (exists y, float_mul_int x 1000000000 = Ok y).
Proof.
  assert (exists m e, float_of_int 1000000 = Ok (S754_finite false m e))
    as (m1 & e1 & H1) by (vm_compute; eauto).
  assert (exists m e, float_of_int 1000000000 = Ok (S754_finite false m e))
    as (m2 & e2 & H2) by (vm_compute; eauto).
  unfold float_div_int, float_mul_int. rewrite H1, H2.
  cbn [res_bind is_fzero].
  split; [| split]; eexists; reflexivity.
Qed.

(** The quantities of the report are computed without an exception
    from any price and any supply below [2^500] in magnitude. *)
Lemma derive_total (nexa_price : pyfloat) (circ_supply : Z) :
  Z.abs circ_supply < 2 ^ 500 -> exists q, derive nexa_price circ_supply = Ok q.
Proof.
  intro Hn. unfold derive, float_mul_int at 1.
  destruct (float_of_int_total circ_supply Hn) as [y ->]. cbn [res_bind].
  destruct (int_truediv_trillion_total circ_supply Hn) as [t ->].
  cbn [res_bind].
  destruct (derive_constants (fmul nexa_price y)) as ([mcm ->] & _ & _).
  destruct (derive_constants nexa_price) as (_ & [ppm ->] & [ppb ->]).
  cbn [res_bind]. eexists. reflexivity.
Qed.

(** The only exception that computing the quantities can raise is
    [OverflowError]. *)
Lemma derive_raises (nexa_price : pyfloat) (circ_supply : Z) (e : exn) :
  derive nexa_price circ_supply = Raise e -> e = OverflowError.
Proof.
  unfold derive, float_mul_int at 1.
  destruct (float_of_int circ_supply) as [y | e0] eqn:Hy; cbn [res_bind].
  - destruct (int_truediv circ_supply 1000000000000) as [t | e1] eqn:Ht;
      cbn [res_bind].
    + destruct (derive_constants (fmul nexa_price y)) as ([mcm ->] & _ & _).
      destruct (derive_constants nexa_price) as (_ & [ppm ->] & [ppb ->]).
      discriminate.
    + intros [= <-]. now apply (int_truediv_trillion_raises circ_supply).
  - intros [= <-]. now apply (float_of_int_raises circ_supply).
Qed.

Section Produced.

Context {B : Builtins}.

Lemma fetch_price_total (w : world) :
  exists o source, result (fetch_price w) [] = Ok (o, source).
Proof.
  rewrite fetch_price_result.
  destruct (get_mexc_price_total w []) as [[p |] ->]; [now eexists; eexists |].
  destruct (get_cg_price_total w []) as [o ->]. now eexists; eexists.
Qed.

Lemma get_circ_supply_total (w : world) :
  exists n, result (get_circ_supply w) [] = Ok n.
Proof.
  rewrite get_circ_supply_result, supply_fallback_result.
  destruct (result (explorer_try w) []) as [n | e]; [now exists n |].
  destruct (get_cg_supply_total w []) as [[n |] ->]; eexists; reflexivity.
Qed.

End Produced.

(** X6: once a price is at hand and the supply in use is below 2^500 in
    magnitude, [get_nexa_price] raises nothing and returns the report:
    the escaped message built from this price, its label and the
    quantities derived from this supply. *)
Theorem report_produced (B : Builtins) (w : world) (j : journal)
    (nexa_price : pyfloat) (source : string) (circ_supply : Z) :
  result (fetch_price w) [] = Ok (Some nexa_price, source) ->
  result (get_circ_supply w) [] = Ok circ_supply ->
  Z.abs circ_supply < 2 ^ 500 ->
  exists q,
    derive nexa_price circ_supply = Ok q /\
    result (get_nexa_price w) j =
      Ok (escape_markdown_v2 (message source nexa_price q)).
Proof.
  intros Hprice Hsupply Hbound.
  destruct (derive_total nexa_price circ_supply Hbound) as [q Hq].
  exists q. split; [exact Hq |].
  rewrite get_nexa_price_result, Hprice, Hsupply. cbn [res_bind].
  now rewrite Hq.
Qed.

Lemma report_produced_witness :
  result (@fetch_price decimal_builtins world_up) [] =
    Ok (Some sample_price, "MEXC") /\
  result (@get_circ_supply decimal_builtins world_up) [] = Ok 8000000000000 /\
  Z.abs 8000000000000 < 2 ^ 500 /\
  exists q,
    derive sample_price 8000000000000 = Ok q /\
    result (@get_nexa_price decimal_builtins world_up) [] =
      Ok (escape_markdown_v2 (message "MEXC" sample_price q)).
Proof.
  split; [reflexivity |]. split; [reflexivity |]. split; [reflexivity |].
  apply (report_produced decimal_builtins world_up [] sample_price "MEXC"
           8000000000000); reflexivity.
Defined.

(** X7: the only exception that leaves [get_nexa_price] is
    [OverflowError], and it leaves only when a price was found and the
    supply in use is at least 2^500 in magnitude: no failure of a service
    and no malformed body makes the function raise. *)
Theorem get_nexa_price_raises (B : Builtins) (w : world) (j : journal)
    (e : exn) :
  result (get_nexa_price w) j = Raise e ->
  e = OverflowError /\
  exists nexa_price source circ_supply,
    result (fetch_price w) [] = Ok (Some nexa_price, source) /\
    result (get_circ_supply w) [] = Ok circ_supply /\
    2 ^ 500 <= Z.abs circ_supply.
Proof.
  rewrite get_nexa_price_result.
  destruct (fetch_price_total w) as (o & source & ->).
  destruct o as [p |]; [| discriminate].
  destruct (get_circ_supply_total w) as [n ->]. cbn [res_bind].
  destruct (derive p n) as [q | e'] eqn:Hderive; cbn [res_bind];
    [discriminate |].
  intros [= <-]. split; [now apply (derive_raises p n) |].
  exists p, source, n. repeat split.
  destruct (Z.lt_ge_cases (Z.abs n) (2 ^ 500)) as [Hlt | Hge];
    [| exact Hge].
  destruct (derive_total p n Hlt) as [q Hq]. congruence.
Qed.

Lemma get_nexa_price_raises_witness :
  result (@get_nexa_price decimal_builtins world_huge) [] =
    Raise OverflowError /\
  result (@get_circ_supply decimal_builtins world_huge) [] = Ok (2 ^ 1024).
Proof.
  assert (result (@get_nexa_price decimal_builtins world_huge) [] =
            Raise OverflowError) as Hraise by (vm_compute; reflexivity).
  split; [exact Hraise |].
  destruct (get_nexa_price_raises decimal_builtins world_huge []
              OverflowError Hraise) as (_ & p & source & n & _ & Hn & _).
  vm_compute. reflexivity.
Defined.

(** ** The requests of one invocation *)

Lemma urls_app (a b : journal) :
  urls (a ++ b)%list = (urls a ++ urls b)%list.
Proof. apply flat_map_app. Qed.

Lemma sends_ret {A : Type} (a : A) : sends [] (ret a).
Proof. intro j. cbn. now rewrite app_nil_r. Qed.

Lemma sends_raise {A : Type} (e : exn) : sends [] (@raise A e).
Proof. intro j. cbn. now rewrite app_nil_r. Qed.

Lemma sends_lift {A : Type} (r : res A) : sends [] (lift r).
Proof. intro j. cbn. now rewrite app_nil_r. Qed.

Lemma sends_log lvl fmt args : sends [] (log lvl fmt args).
Proof. intro j. unfold log, emit, effects. cbn [snd]. apply urls_app. Qed.

Lemma sends_raise_for_status r : sends [] (raise_for_status r).
Proof.
  unfold raise_for_status.
  destruct (status_ok r); [apply sends_ret | apply sends_raise].
Qed.

(** A computation that has sent [l] and goes on without a request has
    sent [l], whether it goes on or raises. *)
Lemma sends_bind {A C : Type} (l : list string) (m : M A) (f : A -> M C) :
  sends l m -> (forall a, sends [] (f a)) -> sends l (bind m f).
Proof.
  intros Hm Hf j. specialize (Hm j). unfold effects, bind in *.
  destruct (m j) as [[a | e] j']; cbn [snd] in *; [| exact Hm].
  specialize (Hf a j'). unfold effects in Hf.
  now rewrite Hf, app_nil_r.
Qed.

Lemma sends_try_except {A : Type} (l : list string) (m : M A)
    (h : exn -> M A) :
  sends l m -> (forall e, sends [] (h e)) -> sends l (try_except m h).
Proof.
  intros Hm Hh j. specialize (Hm j). unfold effects, try_except in *.
  destruct (m j) as [[a | e] j']; cbn [snd] in *; [exact Hm |].
  specialize (Hh e j'). unfold effects in Hh.
  now rewrite Hh, app_nil_r.
Qed.

Lemma sends_requests_get url params o :
  sends [url] (requests_get url params o).
Proof.
  unfold requests_get. apply sends_bind.
  - intro j. unfold emit, effects. cbn [snd]. apply urls_app.
  - intros _. destruct o; [apply sends_ret | apply sends_raise].
Qed.

#[local] Hint Resolve sends_ret sends_raise sends_lift sends_log
  sends_raise_for_status sends_requests_get : journal.

Ltac sends_step :=
  match goal with
  | |- sends _ (bind _ _) => apply sends_bind; [| intros ?]
  | |- sends _ (try_except _ _) => apply sends_try_except; [| intros ?]
  | |- sends _ (if ?b then _ else _) => destruct b
  | |- sends _ (match ?x with _ => _ end) => destruct x
  | |- sends _ _ => solve [auto with journal]
  end.

Ltac sends_tac := repeat sends_step.

Section Sequence.

Context {B : Builtins}.

(** Each fetcher sends its one request, whatever comes back. *)
Lemma sends_get_mexc_price w : sends [MEXC_URL] (get_mexc_price w).
Proof. unfold get_mexc_price, get_mexc_price_try. sends_tac. Qed.

Lemma sends_get_cg_price w : sends [COINGECKO_URL] (get_cg_price w).
Proof. unfold get_cg_price, get_cg_price_try. sends_tac. Qed.

Lemma sends_get_cg_supply w : sends [COINGECKO_URL] (get_cg_supply w).
Proof. unfold get_cg_supply, get_cg_supply_try. sends_tac. Qed.

Lemma sends_explorer_try w : sends [EXPLORER_URL] (explorer_try w).
Proof.
  unfold explorer_try, try_except_ValueError, explorer_json_number,
    explorer_text_number.
  sends_tac.
Qed.

Lemma run_log lvl fmt args :
  result (log lvl fmt args) [] = Ok tt /\
  effects (log lvl fmt args) [] = [EvLog lvl fmt args].
Proof. split; reflexivity. Qed.

Lemma urls_fetch_price w :
  urls (effects (fetch_price w) []) =
    MEXC_URL ::
    match result (get_mexc_price w) [] with
    | Ok (Some _) => []
    | _ => [COINGECKO_URL]
    end.
Proof.
  unfold fetch_price.
  rewrite effects_bind; [| appending_tac | intros; appending_tac].
  rewrite urls_app, (sends_get_mexc_price w []).
  destruct (get_mexc_price_total w []) as [[p |] ->]; [reflexivity |].
  rewrite effects_bind; [| appending_tac | intros; appending_tac].
  destruct (run_log INFO "Falling back to CoinGecko for price" [])
    as [-> ->].
  rewrite effects_bind; [| appending_tac | intros; appending_tac].
  rewrite !urls_app, (sends_get_cg_price w []).
  destruct (result (get_cg_price w) []); reflexivity.
Qed.

Lemma urls_get_circ_supply w :
  urls (effects (get_circ_supply w) []) =
    EXPLORER_URL ::
    match result (explorer_try w) [] with
    | Ok _ => []
    | Raise _ => [COINGECKO_URL]
    end.
Proof.
  rewrite get_circ_supply_effects, urls_app, (sends_explorer_try w []).
  destruct (result (explorer_try w) []) as [n | e]; [reflexivity |].
  cbn [app urls flat_map]. f_equal. fold (urls (effects (supply_fallback w) [])).
  unfold supply_fallback.
  rewrite effects_bind; [| appending_tac | intros; appending_tac].
  rewrite urls_app, (sends_get_cg_supply w []).
  destruct (result (get_cg_supply w) []) as [[n |] | e']; reflexivity.
Qed.

End Sequence.

(** X8: one invocation of [get_nexa_price] sends its requests one after
    the other in a fixed order decided by the outcomes of the tiers: MEXC
    first; CoinGecko for the price only if MEXC gave none; then, only if
    a price was found, the explorer, and CoinGecko for the supply only if
    the explorer tier failed.  So it sends at least one request and at
    most four, and never one to the explorer without a price. *)
Theorem request_sequence (B : Builtins) (w : world) (j : journal) :
  urls (effects (get_nexa_price w) j) = (urls j ++ expected_requests w)%list /\
  (1 <= List.length (expected_requests w) <= 4)%nat /\
  (In EXPLORER_URL (expected_requests w) <->
   exists nexa_price source,
     result (fetch_price w) [] = Ok (Some nexa_price, source)).
Proof.
  split; [| split].
  - rewrite (effects_appending _ j (appending_get_nexa_price w)), urls_app.
    f_equal. unfold get_nexa_price, expected_requests.
    rewrite effects_bind; [| appending_tac | intros; appending_tac].
    rewrite urls_app, urls_fetch_price. cbn [app]. f_equal. f_equal.
    destruct (result (fetch_price w) []) as [[[p |] source] | e];
      try reflexivity.
    rewrite effects_bind; [| appending_tac | intros; appending_tac].
    rewrite urls_app, urls_get_circ_supply.
    destruct (result (get_circ_supply w) []) as [n | e]; cbn [app].
    + rewrite effects_bind; [| appending_tac | intros; appending_tac].
      unfold lift, ret, effects, result. cbn.
      destruct (derive p n); cbn; now rewrite app_nil_r.
    + now rewrite app_nil_r.
  - unfold expected_requests.
    destruct (result (get_mexc_price w) []) as [[p |] | e];
      destruct (result (fetch_price w) []) as [[[p' |] source] | e'];
      try destruct (result (explorer_try w) []); cbn; lia.
  - unfold expected_requests. split.
    + destruct (result (fetch_price w) []) as [[[p' |] source] | e'];
        [intros _; now exists p', source | |];
        destruct (result (get_mexc_price w) []) as [[p |] | e]; cbn;
        intros H; repeat (destruct H as [H | H]; try discriminate H);
        contradiction.
    + intros (p & source & ->). apply in_cons, in_or_app. right. now left.
Qed.

Example requests_when_only_coingecko_answers :
  urls (effects (@get_nexa_price decimal_builtins world_coingecko) []) =
    [MEXC_URL; COINGECKO_URL; EXPLORER_URL; COINGECKO_URL].
Proof. vm_compute. reflexivity. Qed.

(** ** What the fetchers log *)

Section Logged.

Context {B : Builtins}.

(** Runs a fetcher whose request is [field w], case by case. *)
Ltac fetch_cases field w guard :=
  run; destruct (field w) as [r |]; cbn;
  [ destruct (status_ok r); cbn;
    [ destruct (json r) as [data | e0]; cbn;
      [ destruct (guard data) as [[|] | e1]; cbn | ]
    | ]
  | ].

Lemma get_mexc_price_logged w :
  match result (get_mexc_price_try w) [] with
  | Ok (Some p) =>
      result (get_mexc_price w) [] = Ok (Some p) /\
      levels (effects (get_mexc_price w) []) = []
  | Ok None =>
      result (get_mexc_price w) [] = Ok None /\
      levels (effects (get_mexc_price w) []) = [WARNING]
  | Raise _ =>
      result (get_mexc_price w) [] = Ok None /\
      levels (effects (get_mexc_price w) []) = [ERROR]
  end.
Proof.
  unfold get_mexc_price, get_mexc_price_try.
  fetch_cases mexc_ticker w ticker_guard; try (split; reflexivity).
  destruct (getitem_key data "price") as [v | e2]; cbn;
    [| split; reflexivity].
  destruct (py_float v); cbn; split; reflexivity.
Qed.

Lemma get_cg_price_logged w :
  match result (get_cg_price_try w) [] with
  | Ok (Some p) =>
      result (get_cg_price w) [] = Ok (Some p) /\
      levels (effects (get_cg_price w) []) = []
  | Ok None =>
      result (get_cg_price w) [] = Ok None /\
      levels (effects (get_cg_price w) []) = [WARNING]
  | Raise _ =>
      result (get_cg_price w) [] = Ok None /\
      levels (effects (get_cg_price w) []) = [ERROR]
  end.
Proof.
  unfold get_cg_price, get_cg_price_try.
  fetch_cases coingecko_price w (markets_guard "current_price");
    try (split; reflexivity).
  destruct (getitem_0 data) as [first | e2]; cbn; [| split; reflexivity].
  destruct (getitem_key first "current_price") as [v | e3]; cbn;
    [| split; reflexivity].
  destruct (py_float v); cbn; split; reflexivity.
Qed.

Lemma get_cg_supply_logged w :
  match result (get_cg_supply_try w) [] with
  | Ok (Some n) =>
      result (get_cg_supply w) [] = Ok (Some n) /\
      levels (effects (get_cg_supply w) []) = []
  | _ =>
      result (get_cg_supply w) [] = Ok None /\
      levels (effects (get_cg_supply w) []) = [WARNING]
  end.
Proof.
  unfold get_cg_supply, get_cg_supply_try.
  fetch_cases coingecko_supply w (markets_guard "circulating_supply");
    try (split; reflexivity).
  destruct (getitem_0 data) as [first | e2]; cbn; [| split; reflexivity].
  destruct (getitem_key first "circulating_supply") as [v | e3]; cbn;
    [| split; reflexivity].
  destruct (py_int v); cbn; split; reflexivity.
Qed.

End Logged.

(** X9: no failure of a price or supply fetcher is silent.  A fetcher
    that returns a value logs nothing; one that returns [None] has logged
    exactly one record: a warning when the body decoded but had not the
    expected shape, and, when an exception was caught, an error for
    [get_mexc_price] and [get_cg_price] and a warning for
    [get_cg_supply]. *)
Theorem failures_are_logged (B : Builtins) (w : world) :
  match result (get_mexc_price_try w) [] with
  | Ok (Some p) =>
      result (get_mexc_price w) [] = Ok (Some p) /\
      levels (effects (get_mexc_price w) []) = []
  | Ok None =>
      result (get_mexc_price w) [] = Ok None /\
      levels (effects (get_mexc_price w) []) = [WARNING]
  | Raise _ =>
      result (get_mexc_price w) [] = Ok None /\
      levels (effects (get_mexc_price w) []) = [ERROR]
  end /\
  match result (get_cg_price_try w) [] with
  | Ok (Some p) =>
      result (get_cg_price w) [] = Ok (Some p) /\
      levels (effects (get_cg_price w) []) = []
  | Ok None =>
      result (get_cg_price w) [] = Ok None /\
      levels (effects (get_cg_price w) []) = [WARNING]
  | Raise _ =>
      result (get_cg_price w) [] = Ok None /\
      levels (effects (get_cg_price w) []) = [ERROR]
  end /\
  match result (get_cg_supply_try w) [] with
  | Ok (Some n) =>
      result (get_cg_supply w) [] = Ok (Some n) /\
      levels (effects (get_cg_supply w) []) = []
  | _ =>
      result (get_cg_supply w) [] = Ok None /\
      levels (effects (get_cg_supply w) []) = [WARNING]
  end.
Proof.
  split; [apply get_mexc_price_logged |].
  split; [apply get_cg_price_logged | apply get_cg_supply_logged].
Qed.

(** ** When a fetcher returns a value *)

(** X10: [get_mexc_price] returns a price exactly when MEXC answered with
    a success status a body that decodes to a dict holding ["price"],
    whose value [float] accepts; the price is that float.  In every other
    case it returns [None]. *)
Theorem get_mexc_price_some_iff (B : Builtins) (w : world) (j : journal)
    (p : pyfloat) :
  result (get_mexc_price w) j = Ok (Some p) <->
  exists r d v,
    mexc_ticker w = Some r /\ status_ok r = true /\
    json r = Ok (PDict d) /\ lookup "price" d = Some v /\
    py_float v = Ok p.
Proof.
  rewrite (result_appending _ j (appending_get_mexc_price w)). split.
  - unfold get_mexc_price, get_mexc_price_try, ticker_guard. run.
    destruct (mexc_ticker w) as [r |] eqn:Hw; cbn; [| discriminate].
    destruct (status_ok r) eqn:Hok; cbn; [| discriminate].
    destruct (json r) as [data | e] eqn:Hjson; cbn; [| discriminate].
    destruct data as [| b | z | f | s | l | d]; cbn; try discriminate.
    destruct (lookup "price" d) as [v |] eqn:Hv; cbn; [| discriminate].
    destruct (py_float v) as [p' | e] eqn:Hp; cbn; [| discriminate].
    intros [= <-]. now exists r, d, v.
  - intros (r & d & v & Hw & Hok & Hjson & Hv & Hp).
    now rewrite (get_mexc_price_value w r d v Hw Hok Hjson Hv), Hp.
Qed.

(** X11: [get_cg_price] returns a price exactly when CoinGecko answered
    with a success status a body that decodes to a list whose first
    element is a dict holding ["current_price"], whose value [float]
    accepts.  A first element that is a string or a list passes the
    membership test when it contains the field name, and still yields
    [None]. *)
Theorem get_cg_price_some_iff (B : Builtins) (w : world) (j : journal)
    (p : pyfloat) :
  result (get_cg_price w) j = Ok (Some p) <->
  exists r d rest v,
    coingecko_price w = Some r /\ status_ok r = true /\
    json r = Ok (PList (PDict d :: rest)) /\
    lookup "current_price" d = Some v /\ py_float v = Ok p.
Proof.
  rewrite (result_appending _ j (appending_get_cg_price w)). split.
  - unfold get_cg_price, get_cg_price_try, markets_guard. run.
    destruct (coingecko_price w) as [r |] eqn:Hw; cbn; [| discriminate].
    destruct (status_ok r) eqn:Hok; cbn; [| discriminate].
    destruct (json r) as [data | e] eqn:Hjson; cbn; [| discriminate].
    destruct (truthy data); cbn; [| discriminate].
    destruct data as [| b | z | f | s | l | d]; cbn; try discriminate.
    destruct l as [| first rest]; cbn; [discriminate |].
    destruct first as [| b | z | f | s | l | d]; cbn; try discriminate.
    + destruct (contains "current_price" s); discriminate.
    + destruct (existsb (is_str "current_price") l); discriminate.
    + destruct (lookup "current_price" d) as [v |] eqn:Hv; cbn;
        [| discriminate].
      destruct (py_float v) as [p' | e] eqn:Hp; cbn; [| discriminate].
      intros [= <-]. now exists r, d, rest, v.
  - intros (r & d & rest & v & Hw & Hok & Hjson & Hv & Hp).
    now rewrite (get_cg_price_value w r d rest v Hw Hok Hjson Hv), Hp.
Qed.

(** X12: [get_cg_supply] returns a supply exactly when CoinGecko answered
    with a success status a body that decodes to a list whose first
    element is a dict holding ["circulating_supply"], whose value [int]
    accepts; the supply is that integer. *)
Theorem get_cg_supply_some_iff (B : Builtins) (w : world) (j : journal)
    (n : Z) :
  result (get_cg_supply w) j = Ok (Some n) <->
  exists r d rest v,
    coingecko_supply w = Some r /\ status_ok r = true /\
    json r = Ok (PList (PDict d :: rest)) /\
    lookup "circulating_supply" d = Some v /\ py_int v = Ok n.
Proof.
  rewrite (result_appending _ j (appending_get_cg_supply w)). split.
  - unfold get_cg_supply, get_cg_supply_try, markets_guard. run.
    destruct (coingecko_supply w) as [r |] eqn:Hw; cbn; [| discriminate].
    destruct (status_ok r) eqn:Hok; cbn; [| discriminate].
    destruct (json r) as [data | e] eqn:Hjson; cbn; [| discriminate].
    destruct (truthy data); cbn; [| discriminate].
    destruct data as [| b | z | f | s | l | d]; cbn; try discriminate.
    destruct l as [| first rest]; cbn; [discriminate |].
    destruct first as [| b | z | f | s | l | d]; cbn; try discriminate.
    + destruct (contains "circulating_supply" s); discriminate.
    + destruct (existsb (is_str "circulating_supply") l); discriminate.
    + destruct (lookup "circulating_supply" d) as [v |] eqn:Hv; cbn;
        [| discriminate].
      destruct (py_int v) as [n' | e] eqn:Hn; cbn; [| discriminate].
      intros [= <-]. now exists r, d, rest, v.
  - intros (r & d & rest & v & Hw & Hok & Hjson & Hv & Hn).
    now rewrite (get_cg_supply_value w r d rest v Hw Hok Hjson Hv), Hn.
Qed.

Example markets_string_element :
  let r := ok_response ("[" ++ DQ ++ "no current_price here" ++ DQ ++ "]")
             (Ok (PList [PStr "no current_price here"])) in
  let w := {| explorer_coinsupply := None; coingecko_supply := None;
              mexc_ticker := None; coingecko_price := Some r |} in
  markets_guard "current_price" (PList [PStr "no current_price here"]) =
    Ok true /\
  @get_cg_price decimal_builtins w [] =
    (Ok None,
     [EvGet COINGECKO_URL COINGECKO_PARAMS;
      EvLog ERROR "CoinGecko price error: %s" [ArgExn TypeError]]).
Proof. split; reflexivity. Qed.

Section ExplorerValue.

Context {B : Builtins}.

(** The events of the explorer tier are its request and, at most, the
    record of the raw body and the announcement of the text parse. *)
Lemma explorer_try_levels (w : world) :
  levels (effects (explorer_try w) []) = [] \/
  levels (effects (explorer_try w) []) = [INFO] \/
  levels (effects (explorer_try w) []) = [INFO; DEBUG].
Proof.
  unfold explorer_try, explorer_json_number, explorer_text_number. run.
  destruct (explorer_coinsupply w) as [r |]; cbn; [| now left].
  destruct (status_ok r); cbn; [| now left].
  destruct (json r) as [data | e]; cbn.
  - destruct (py_int data) as [n | e]; cbn; [now right; left |].
    destruct e; cbn; try (now right; left).
    destruct (py_int (PStr (str_strip (text r)))); cbn; now right; right.
  - destruct e; cbn; try (now right; left).
    destruct (py_int (PStr (str_strip (text r)))); cbn; now right; right.
Qed.

End ExplorerValue.

(** X13: the explorer tier gives a supply exactly when the explorer
    answered with a success status and either [int(r.json())] is that
    supply, or [int(r.json())] raised a [ValueError] and the trimmed body
    reads as that integer.  An unreachable explorer, a status that is not
    a success, or a body that is neither, makes the tier fail. *)
Theorem explorer_try_ok_iff (B : Builtins) (w : world) (j : journal) (n : Z) :
  result (explorer_try w) j = Ok n <->
  exists r,
    explorer_coinsupply w = Some r /\ status_ok r = true /\
    (result (explorer_json_number r) [] = Ok n \/
     (result (explorer_json_number r) [] = Raise ValueError /\
      int_of_str (str_strip (text r)) = Some n)).
Proof.
  rewrite (result_appending _ j (appending_explorer_try w)). split.
  - intro H.
    destruct (explorer_coinsupply w) as [r |] eqn:Hw;
      [| unfold explorer_try in H; run; rewrite Hw in H; discriminate].
    destruct (status_ok r) eqn:Hok;
      [| unfold explorer_try in H; run; rewrite Hw in H; cbn in H;
         rewrite Hok in H; discriminate].
    exists r. split; [reflexivity |]. split; [exact Hok |].
    pose proof (explorer_try_cases w r Hw Hok) as Hcases.
    destruct (result (explorer_json_number r) []) as [n' | e].
    + left. destruct Hcases as [Hres _]. congruence.
    + destruct e; try (destruct Hcases as [Hres _]; congruence).
      right. split; [reflexivity |].
      destruct Hcases as [Hres _]. rewrite Hres in H.
      unfold explorer_text_number, result, lift in H. cbn in H.
      destruct (int_of_str (str_strip (text r))); congruence.
  - intros (r & Hw & Hok & Hvalue).
    pose proof (explorer_try_cases w r Hw Hok) as Hcases.
    destruct Hvalue as [Hjson | [Hjson Htext]]; rewrite Hjson in Hcases;
      destruct Hcases as [-> _]; [reflexivity |].
    unfold explorer_text_number, result, lift. cbn. now rewrite Htext.
Qed.

(** X14: the supply that the explorer serves is not validated: a JSON
    integer, be it zero or negative, is returned as it is, a JSON boolean
    as 1 or 0, and the only record logged is the informational one of the
    raw body: no warning, no error. *)
Theorem explorer_value_unchecked (B : Builtins) (w : world) (r : response)
    (j : journal) (n : Z) (b : bool) :
  explorer_coinsupply w = Some r -> status_ok r = true ->
  (json r = Ok (PInt n) ->
   result (get_circ_supply w) j = Ok n /\
   levels (effects (get_circ_supply w) []) = [INFO]) /\
  (json r = Ok (PBool b) ->
   result (get_circ_supply w) j = Ok (if b then 1 else 0) /\
   levels (effects (get_circ_supply w) []) = [INFO]).
Proof.
  intros Hw Hok.
  rewrite (result_appending _ j (appending_get_circ_supply w)).
  split; intro Hjson;
    unfold get_circ_supply, explorer_try, explorer_json_number; run;
    rewrite Hw; cbn; rewrite Hok; cbn; rewrite Hjson; cbn;
    split; reflexivity.
Qed.

Lemma explorer_value_unchecked_witness :
  explorer_coinsupply world_up = Some explorer_sample /\
  status_ok explorer_sample = true /\
  json explorer_sample = Ok (PInt 8000000000000) /\
  result (@get_circ_supply decimal_builtins world_up) [] = Ok 8000000000000 /\
  levels (effects (@get_circ_supply decimal_builtins world_up) []) = [INFO].
Proof.
  do 3 (split; [reflexivity |]).
  exact (proj1 (explorer_value_unchecked decimal_builtins world_up
                  explorer_sample [] 8000000000000 true eq_refl eq_refl)
           eq_refl).
Defined.

(** ** What is logged about the source of the supply *)

(** X15: the journal tells which source the supply came from.  When the
    explorer tier gives the supply, nothing above the informational and
    debug levels is logged.  When it fails, the exception it raised is
    logged as an error, and the last record of the call names the source
    used: the CoinGecko value, at the informational level, or the manual
    constant, as a warning. *)
Theorem supply_source_logged (B : Builtins) (w : world) :
  match result (explorer_try w) [] with
  | Ok _ =>
      ~ In WARNING (levels (effects (get_circ_supply w) [])) /\
      ~ In ERROR (levels (effects (get_circ_supply w) []))
  | Raise e =>
      exists before,
        effects (get_circ_supply w) [] =
          (before ++
           [match result (get_cg_supply w) [] with
            | Ok (Some n) => EvLog INFO "Using CoinGecko supply: %d" [ArgInt n]
            | _ => EvLog WARNING "Falling back to manual supply: %d"
                     [ArgInt MANUAL_CIRC_SUPPLY]
            end])%list /\
        In (EvLog ERROR "Explorer supply error: %s" [ArgExn e]) before
  end.
Proof.
  rewrite get_circ_supply_effects.
  destruct (result (explorer_try w) []) as [n | e].
  - rewrite app_nil_r.
    destruct (explorer_try_levels w) as [-> | [-> | ->]]; split; cbn;
      intuition discriminate.
  - unfold supply_fallback.
    rewrite effects_bind; [| appending_tac | intros; appending_tac].
    destruct (get_cg_supply_total w []) as [o ->].
    exists (effects (explorer_try w) [] ++
            EvLog ERROR "Explorer supply error: %s" [ArgExn e]
            :: effects (get_cg_supply w) [])%list.
    split.
    + rewrite <- app_assoc. cbn [app]. do 2 f_equal.
      destruct o as [n |];
        (rewrite effects_bind; [| appending_tac | intros; appending_tac]);
        reflexivity.
    + apply in_or_app. right. now left.
Qed.

(** ** The report and the reply *)

(** X16: a string that [get_nexa_price] returns has every reserved
    character preceded by exactly one backslash exactly when a price was
    found; it is then the escaped form of a message without backslashes,
    which removing the backslashes gives back. *)
Theorem report_valid_iff_price (B : Builtins) (w : world) (j : journal)
    (s : string) :
  result (get_nexa_price w) j = Ok s ->
  (escaped s = true <->
   exists nexa_price source,
     result (fetch_price w) [] = Ok (Some nexa_price, source)) /\
  (escaped s = true ->
   occurs "\" (unescape s) = false /\ escape_markdown_v2 (unescape s) = s).
Proof.
  rewrite get_nexa_price_result.
  destruct (result (fetch_price w) []) as [[[p |] source] | e] eqn:Hfetch;
    [| | discriminate].
  - apply fetch_price_label in Hfetch.
    destruct (result (get_circ_supply w) []) as [n | e]; [| discriminate].
    cbn [res_bind]. destruct (derive p n) as [q | e]; [| discriminate].
    cbn [res_bind]. intros [= <-].
    pose proof (occurs_message source p q Hfetch) as Hplain.
    assert (unescape (escape_markdown_v2 (message source p q)) =
              message source p q) as Hback
      by (rewrite escape_markdown_v2_pass; apply unescape_escape_pass).
    split.
    + split; [intros _; now exists p, source |].
      intros _. now apply escaped_escape_markdown_v2.
    + intros _. now rewrite Hback.
  - intros [= <-]. split.
    + split; [discriminate |]. intros (p & source' & H). discriminate.
    + discriminate.
Qed.

Lemma report_valid_iff_price_witness :
  exists s,
    result (@get_nexa_price decimal_builtins world_up) [] = Ok s /\
    (escaped s = true <->
     exists nexa_price source,
       result (@fetch_price decimal_builtins world_up) [] =
         Ok (Some nexa_price, source)).
Proof.
  eexists. split; [vm_compute; reflexivity |].
  eapply (proj1 (report_valid_iff_price decimal_builtins world_up [] _ _)).
  Unshelve. vm_compute. reflexivity.
Defined.

Section Handler.

Context {B : Builtins}.

Lemma appending_price w : appending (price w).
Proof. unfold price. appending_tac. Qed.

Lemma price_result w j :
  result (price w) j =
    res_bind (result (get_nexa_price w) [])
      (fun message =>
         Ok {| reply_text := message; parse_mode := "MarkdownV2" |}).
Proof.
  unfold price.
  rewrite result_bind; [| appending_tac | intros; appending_tac].
  reflexivity.
Qed.

End Handler.

(** X17: the handler replies in MarkdownV2 mode with the string of
    [get_nexa_price] and sends no request of its own.  With a price and
    a supply below 2^500 in magnitude it always replies, and the text it
    sends is validly escaped; without a price it sends the error message,
    in the same mode, although that text is not validly escaped. *)
Theorem price_reply (B : Builtins) (w : world) (j : journal) :
  effects (price w) j = effects (get_nexa_price w) j /\
  match result (fetch_price w) [] with
  | Ok (Some nexa_price, source) =>
      forall circ_supply,
        result (get_circ_supply w) [] = Ok circ_supply ->
        Z.abs circ_supply < 2 ^ 500 ->
        exists q,
          derive nexa_price circ_supply = Ok q /\
          result (price w) j =
            Ok {| reply_text :=
                    escape_markdown_v2 (message source nexa_price q);
                  parse_mode := "MarkdownV2" |} /\
          escaped (escape_markdown_v2 (message source nexa_price q)) = true
  | _ =>
      result (price w) j =
        Ok {| reply_text := ERROR_MESSAGE; parse_mode := "MarkdownV2" |} /\
      escaped ERROR_MESSAGE = false
  end.
Proof.
  split.
  - unfold price, effects, bind, ret.
    destruct (get_nexa_price w j) as [[s | e] j']; reflexivity.
  - rewrite price_result, get_nexa_price_result.
    destruct (fetch_price_total w) as (o & source & Hfetch).
    rewrite Hfetch. destruct o as [p |]; [| split; reflexivity].
    intros n Hn Hbound. rewrite Hn. cbn [res_bind].
    destruct (derive_total p n Hbound) as [q Hq]. exists q.
    rewrite Hq. cbn [res_bind]. repeat split.
    apply escaped_escape_markdown_v2, occurs_message.
    now apply (fetch_price_label B w [] (Some p)).
Qed.
